(** * Heart-disease prediction services: the serving contract

    A shallow embedding of the two FastAPI entry points of the repository,
    [deployment/app/main.py] and [docker_monitor/app/main.py], and the
    properties of their request handling.

    Conventions of the embedding.
    - A Python [float] is a binary64 value: Rocq's primitive [float].
      A Python [int] is unbounded: [Z].
    - A value of [exn] is an instance of a subclass of [Exception], kept as
      its class name and [str(e)]: what [except Exception] catches.
      [asyncio.CancelledError] derives from [BaseException] only and is
      raised at an [await]; the one [await] of the source is in the
      middleware, where cancellation is an outcome of its own.  The exits
      that end the interpreter (KeyboardInterrupt, SystemExit) are not
      modelled.
    - Effects are threaded explicitly: a computation takes the world it runs
      in and gives back its outcome (a value or a raised exception) with the
      world it leaves behind.  What a computation did before raising stays
      done, as in Python.
    - [print] and [logger] calls write to the console only and are left out. *)

From Stdlib Require Import ZArith String List PrimFloat SpecFloat FloatOps.
From stdpp Require Import base option list gmap strings.

Local Open Scope Z_scope.
Local Open Scope string_scope.

(** ** Python values *)

Abbreviation pyfloat := PrimFloat.float.

(** [a > b] on floats; false when either side is NaN. *)
Definition float_gt (a b : pyfloat) : bool := PrimFloat.ltb b a.

Record exn := Exn { exn_class : string; exn_str : string }.

Inductive result (A : Type) :=
| Ok (a : A)
| Raise (e : exn).
Arguments Ok {A} a.
Arguments Raise {A} e.

(** [float(n)] for an integer [n]: the nearest binary64, and an
    OverflowError when that is beyond the largest finite one. *)
Definition float_of_int (n : Z) : result pyfloat :=
  let x := SF2Prim (binary_normalize prec emax n 0 false) in
  if PrimFloat.is_infinity x
  then Raise (Exn "OverflowError" "int too large to convert to float")
  else Ok x.

(** ** Computations over a world [S] *)

Definition M (S A : Type) : Type := S -> result A * S.

Definition ret {S A} (a : A) : M S A := fun s => (Ok a, s).

Definition raise {S A} (e : exn) : M S A := fun s => (Raise e, s).

Definition bind {S A B} (c : M S A) (k : A -> M S B) : M S B :=
  fun s =>
    match c s with
    | (Ok a, s') => k a s'
    | (Raise e, s') => (Raise e, s')
    end.

(** A pure computation that may raise. *)
Definition lift {S A} (r : result A) : M S A := fun s => (r, s).

Declare Scope py_scope.
Delimit Scope py_scope with py.
Notation "x <- c ;; k" := (bind c (fun x => k))
  (at level 100, c at next level, right associativity) : py_scope.
Notation "c ;;; k" := (bind c (fun _ => k))
  (at level 100, right associativity) : py_scope.
Local Open Scope py_scope.

(** ** Awaiting

    An awaited computation completes, with what it returned or raised, or is
    cancelled: [asyncio.CancelledError] is raised at the [await]. *)
Inductive completion (A : Type) :=
| Completed (r : result A)
| Cancelled.
Arguments Completed {A} r.
Arguments Cancelled {A}.

Definition Async (S A : Type) : Type := S -> completion A * S.

(** A computation without an [await] of its own. *)
Definition run {S A} (c : M S A) : Async S A :=
  fun s => let (r, s') := c s in (Completed r, s').

Definition abind {S A B} (c : Async S A) (k : A -> Async S B) : Async S B :=
  fun s =>
    match c s with
    | (Completed (Ok a), s') => k a s'
    | (Completed (Raise e), s') => (Completed (Raise e), s')
    | (Cancelled, s') => (Cancelled, s')
    end.

(** [try: c  except Exception as e: h e].  A cancellation is not an
    [Exception]: no handler runs and it goes on up. *)
Definition try_except_Exception {S A} (c : Async S A) (h : exn -> Async S A)
  : Async S A :=
  fun s =>
    match c s with
    | (Completed (Ok a), s') => (Completed (Ok a), s')
    | (Completed (Raise e), s') => h e s'
    | (Cancelled, s') => (Cancelled, s')
    end.

Declare Scope async_scope.
Delimit Scope async_scope with async.
Notation "x <- c ;; k" := (abind c (fun x => k))
  (at level 100, c at next level, right associativity) : async_scope.
Notation "c ;;; k" := (abind c (fun _ => k))
  (at level 100, right associativity) : async_scope.

(** ** JSON and HTTP *)

#[local] Set Warnings "-register-all,-inexact-float".

Inductive json :=
| JNull
| JBool (b : bool)
| JInt (n : Z)
| JFloat (x : pyfloat)
| JStr (s : string)
| JArr (l : list json)
| JObj (members : list (string * json)).

Record Response := { status_code : Z; content : json }.

(** What a route function does: return a dict or raise
    [HTTPException(status_code, detail)]. *)
Inductive outcome :=
| Return (d : list (string * json))
| HTTPException (status : Z) (detail : string).

(** [json.dumps(v, allow_nan=False)] accepts [v]: no float in it is NaN or
    infinite. *)
Fixpoint json_compliant (v : json) : bool :=
  match v with
  | JFloat x => PrimFloat.is_finite x
  | JArr l => forallb json_compliant l
  | JObj members =>
      forallb (fun kv => match kv with (_, v') => json_compliant v' end)
              members
  | _ => true
  end.

(** What FastAPI makes of the outcome of a route: a returned dict is
    rendered as the body of a 200, and the rendering raises ValueError on a
    float that is not finite; an [HTTPException] is answered with its status
    and [{"detail": detail}]. *)
Definition respond (o : outcome) : result Response :=
  match o with
  | Return d =>
      if json_compliant (JObj d)
      then Ok {| status_code := 200; content := JObj d |}
      else Raise (Exn "ValueError"
                      "Out of range float values are not JSON compliant")
  | HTTPException st detail =>
      Ok {| status_code := st; content := JObj [("detail", JStr detail)] |}
  end.

(** The answer to a request whose handling raised, when nothing catches the
    exception. *)
Definition internal_server_error : Response :=
  {| status_code := 500; content := JStr "Internal Server Error" |}.

(** The answer of an application without middleware of its own. *)
Definition answer (o : outcome) : Response :=
  match respond o with
  | Ok response => response
  | Raise _ => internal_server_error
  end.

(** ** The request model, as declared in both services *)

Record HeartPatient := {
  age : pyfloat;
  sex : Z;
  cp : Z;
  trestbps : pyfloat;
  chol : pyfloat;
  fbs : Z;
  restecg : Z;
  thalach : pyfloat;
  exang : Z;
  oldpeak : pyfloat;
  slope : Z;
  ca : pyfloat;
  thal : Z
}.

(** ** Data frames *)

Inductive cell :=
| CInt (n : Z)
| CFloat (x : pyfloat).

Record DataFrame := { columns : list string; rows : list (list cell) }.

(** [pd.DataFrame(data, columns=names)] on a list of rows: every row must be
    as long as [names]. *)
Definition DataFrame_of_rows (data : list (list cell)) (names : list string)
  : result DataFrame :=
  if forallb (fun r => Nat.eqb (length r) (length names)) data
  then Ok {| columns := names; rows := data |}
  else Raise (Exn "ValueError" "columns passed do not match the data").

(** [pd.DataFrame([d])] on one dict: its keys are the columns, in the order
    of the dict. *)
Definition DataFrame_of_record (d : list (string * cell)) : DataFrame :=
  {| columns := map fst d; rows := [map snd d] |}.

Fixpoint position (name : string) (names : list string) : option nat :=
  match names with
  | [] => None
  | n :: rest =>
      if String.eqb name n then Some O else S <$> position name rest
  end.

(** [df[names]]: the named columns, in the order of [names]; a name that is
    not a column is a KeyError. *)
Definition select_columns (df : DataFrame) (names : list string)
  : result DataFrame :=
  match mapM (fun n => position n (columns df)) names with
  | Some places =>
      Ok {| columns := names;
            rows := map (fun r => map (fun i => nth i r (CFloat nan)) places)
                        (rows df) |}
  | None => Raise (Exn "KeyError" "not in index")
  end.

(** ** The scored model handle

    The unpickled pipeline is opaque: [predict] gives the array of labels of
    the rows, [predict_proba], when the object has it, the array of class
    probabilities of the rows.  Either may raise.  A handle answers alike on
    the same frame.  The labels are integers, the classes the pipeline was
    fit on.  [class_name] is [type(model).__name__]. *)
Record Model := {
  class_name : string;
  predict_method : DataFrame -> result (list Z);
  predict_proba_method : option (DataFrame -> result (list (list pyfloat)))
}.

Inductive model_call :=
| CallPredict (df : DataFrame)
| CallPredictProba (df : DataFrame).

Definition index {A} (what : string) (l : list A) (i : nat) : result A :=
  match nth_error l i with
  | Some a => Ok a
  | None => Raise (Exn "IndexError" (what ++ " index out of range"))
  end.

Definition AttributeError (cls attr : string) : exn :=
  Exn "AttributeError"
      ("'" ++ cls ++ "' object has no attribute '" ++ attr ++ "'").

(** What import sees of the machine: whether a path exists and what
    [joblib.load] does with it.  The load gives back what was pickled: a
    pipeline, or [None]. *)
Record Env := {
  path_exists : string -> bool;
  joblib_load : string -> result (option Model)
}.

(** ** The request boundary

    FastAPI parses the body as JSON and validates it against [HeartPatient]
    before the route function is called.  How pydantic converts a JSON value
    to an annotated type ([float], [int]) is the library's business and
    differs between its versions; it is a parameter here. *)
Record Coercion := {
  to_float : json -> option pyfloat;
  to_int : json -> option Z
}.

(** The least every version does: a JSON number for a number. *)
Definition json_numbers : Coercion :=
  {| to_float := fun v =>
       match v with
       | JFloat x => Some x
       | JInt n =>
           match float_of_int n with Ok x => Some x | Raise _ => None end
       | _ => None
       end;
     to_int := fun v => match v with JInt n => Some n | _ => None end |}.

(** [json.loads] on an object with a repeated key keeps the last value. *)
Fixpoint json_get (k : string) (members : list (string * json)) : option json :=
  match members with
  | [] => None
  | (k', v) :: rest =>
      match json_get k rest with
      | Some v' => Some v'
      | None => if String.eqb k k' then Some v else None
      end
  end.

Inductive annotation := TFloat | TInt.

(** The fields of [HeartPatient], in declaration order. *)
Definition schema : list (string * annotation) :=
  [("age", TFloat); ("sex", TInt); ("cp", TInt); ("trestbps", TFloat);
   ("chol", TFloat); ("fbs", TInt); ("restecg", TInt); ("thalach", TFloat);
   ("exang", TInt); ("oldpeak", TFloat); ("slope", TInt); ("ca", TFloat);
   ("thal", TInt)].

Inductive field_error :=
| Missing (name : string)
| WrongType (name : string)
| NotAnObject.

(** The check of one field looks at that field only. *)
Definition check_field (c : Coercion) (members : list (string * json))
    (f : string * annotation) : option field_error :=
  match json_get (fst f) members with
  | None => Some (Missing (fst f))
  | Some v =>
      match snd f with
      | TFloat =>
          match to_float c v with
          | Some _ => None
          | None => Some (WrongType (fst f))
          end
      | TInt =>
          match to_int c v with
          | Some _ => None
          | None => Some (WrongType (fst f))
          end
      end
  end.

Definition field_errors (c : Coercion) (members : list (string * json))
  : list field_error :=
  omap (check_field c members) schema.

Definition parse (c : Coercion) (members : list (string * json))
  : option HeartPatient :=
  let float_field k := json_get k members ≫= to_float c in
  let int_field k := json_get k members ≫= to_int c in
  age ← float_field "age";
  sex ← int_field "sex";
  cp ← int_field "cp";
  trestbps ← float_field "trestbps";
  chol ← float_field "chol";
  fbs ← int_field "fbs";
  restecg ← int_field "restecg";
  thalach ← float_field "thalach";
  exang ← int_field "exang";
  oldpeak ← float_field "oldpeak";
  slope ← int_field "slope";
  ca ← float_field "ca";
  thal ← int_field "thal";
  Some {| age := age; sex := sex; cp := cp; trestbps := trestbps;
          chol := chol; fbs := fbs; restecg := restecg; thalach := thalach;
          exang := exang; oldpeak := oldpeak; slope := slope; ca := ca;
          thal := thal |}.

Inductive validation :=
| Valid (data : HeartPatient)
| RequestValidationError (errors : list field_error).

Definition validate (c : Coercion) (body : json) : validation :=
  match body with
  | JObj members =>
      match parse c members with
      | Some data => Valid data
      | None => RequestValidationError (field_errors c members)
      end
  | _ => RequestValidationError [NotAnObject]
  end.

(** FastAPI's answer to a request that fails validation: 422, with the
    place of each error. *)
Definition unprocessable (errors : list field_error) : Response :=
  let place e :=
    match e with
    | Missing name | WrongType name =>
        JObj [("loc", JArr [JStr "body"; JStr name])]
    | NotAnObject => JObj [("loc", JArr [JStr "body"])]
    end in
  {| status_code := 422;
     content := JObj [("detail", JArr (map place errors))] |}.

(** * The deployment service *)
Module Deployment.

(** The module globals after import. *)
Record Globals := { model : option Model; load_error : option string }.

(** Import: the guarded load.  [MODEL_PATH] is the absolute path the module
    computes from its own location. *)
Definition load (env : Env) (MODEL_PATH : string) : Globals :=
  let attempt :=
    if negb (path_exists env MODEL_PATH)
    then Raise (Exn "FileNotFoundError" ("Model file not found: " ++ MODEL_PATH))
    else joblib_load env MODEL_PATH in
  match attempt with
  | Ok loaded => {| model := loaded; load_error := None |}
  | Raise e => {| model := None; load_error := Some (exn_str e) |}
  end.

(** The world of a request: the calls made on the model handle so far. *)
Definition World := list model_call.

(** [model.predict(features)] on the global, which may be [None]. *)
Definition call_predict (g : Globals) (df : DataFrame) : M World (list Z) :=
  match model g with
  | None => raise (AttributeError "NoneType" "predict")
  | Some m => fun w => (predict_method m df, (w ++ [CallPredict df])%list)
  end.

Definition hasattr_predict_proba (g : Globals) : bool :=
  match model g with
  | Some m => bool_decide (is_Some (predict_proba_method m))
  | None => false
  end.

Definition call_predict_proba (g : Globals) (df : DataFrame)
  : M World (list (list pyfloat)) :=
  match model g with
  | None => raise (AttributeError "NoneType" "predict_proba")
  | Some m =>
      match predict_proba_method m with
      | None => raise (AttributeError (class_name m) "predict_proba")
      | Some f => fun w => (f df, (w ++ [CallPredictProba df])%list)
      end
  end.

Definition read_root : outcome :=
  Return [("message", JStr "Heart Disease Prediction API ✅")].

Definition column_names : list string :=
  ["age"; "sex"; "cp"; "trestbps"; "chol"; "fbs"; "restecg";
   "thalach"; "exang"; "oldpeak"; "slope"; "ca"; "thal"].

Definition features_of (data : HeartPatient) : result DataFrame :=
  DataFrame_of_rows
    [[CFloat (age data); CInt (sex data); CInt (cp data);
      CFloat (trestbps data); CFloat (chol data); CInt (fbs data);
      CInt (restecg data); CFloat (thalach data); CInt (exang data);
      CFloat (oldpeak data); CInt (slope data); CFloat (ca data);
      CInt (thal data)]]
    column_names.

Definition predict_body (g : Globals) (data : HeartPatient)
  : M World (list (string * json)) :=
  features <- lift (features_of data) ;;
  labels <- call_predict g features ;;
  prediction <- lift (index "array" labels 0) ;;
  probability <-
    (if hasattr_predict_proba g
     then probs <- call_predict_proba g features ;;
          row <- lift (index "array" probs 0) ;;
          lift (index "array" row 1)
     else labels' <- call_predict g features ;;
          label <- lift (index "array" labels' 0) ;;
          lift (float_of_int label)) ;;
  ret [("prediction", JInt prediction);
       ("probability", JFloat probability);
       ("risk", JStr (if float_gt probability 0.5%float then "HIGH" else "LOW"))].

Definition predict (g : Globals) (data : HeartPatient) : World -> outcome * World :=
  fun w =>
    match predict_body g data w with
    | (Ok d, w') => (Return d, w')
    | (Raise e, w') => (HTTPException 400 (exn_str e), w')
    end.

(** The two routes as the client sees them. *)
Definition GET_root (g : Globals) : World -> Response * World :=
  fun w => (answer read_root, w).

Definition POST_predict (c : Coercion) (g : Globals) (body : json)
  : World -> Response * World :=
  fun w =>
    match validate c body with
    | RequestValidationError errors => (unprocessable errors, w)
    | Valid data => let (o, w') := predict g data w in (answer o, w')
    end.

(** Running the service: the module is imported, then served. *)
Definition serve_GET_root (env : Env) (MODEL_PATH : string)
  : World -> Response * World :=
  GET_root (load env MODEL_PATH).

End Deployment.

(** * The monitored service *)
Module Monitor.

(** Import: the model is loaded at module level, outside any [try]; when
    the load raises, so does the import, and no process serves. *)
Definition MODEL_PATH : string := "models/heart_disease_pipeline_prod.joblib".

Definition model (env : Env) : result (option Model) :=
  joblib_load env MODEL_PATH.

(** The world of a request: the calls made on the model handle and the
    metrics of the process.  A counter family is a map from label values to
    counts; the label values are kept as given to [labels] (the client
    library prints them).  The library stores counts and the gauge as
    doubles and moves them by 1; here they are integers. *)
Record World := {
  calls : list model_call;
  REQUEST_COUNT : gmap (string * string * Z) Z;
  REQUEST_DURATION : list pyfloat;
  ACTIVE_USERS : Z;
  PREDICTIONS : gmap Z Z
}.

Definition counter_inc `{Countable K} (k : K) (m : gmap K Z) : gmap K Z :=
  <[k := default 0 (m !! k) + 1]> m.

Definition ACTIVE_USERS_inc : M World () := fun w =>
  (Ok (), {| calls := calls w; REQUEST_COUNT := REQUEST_COUNT w;
             REQUEST_DURATION := REQUEST_DURATION w;
             ACTIVE_USERS := ACTIVE_USERS w + 1;
             PREDICTIONS := PREDICTIONS w |}).

Definition ACTIVE_USERS_dec : M World () := fun w =>
  (Ok (), {| calls := calls w; REQUEST_COUNT := REQUEST_COUNT w;
             REQUEST_DURATION := REQUEST_DURATION w;
             ACTIVE_USERS := ACTIVE_USERS w - 1;
             PREDICTIONS := PREDICTIONS w |}).

Definition REQUEST_COUNT_inc (method endpoint : string) (status : Z)
  : M World () := fun w =>
  (Ok (), {| calls := calls w;
             REQUEST_COUNT :=
               counter_inc (method, endpoint, status) (REQUEST_COUNT w);
             REQUEST_DURATION := REQUEST_DURATION w;
             ACTIVE_USERS := ACTIVE_USERS w;
             PREDICTIONS := PREDICTIONS w |}).

Definition PREDICTIONS_inc (prediction : Z) : M World () := fun w =>
  (Ok (), {| calls := calls w; REQUEST_COUNT := REQUEST_COUNT w;
             REQUEST_DURATION := REQUEST_DURATION w;
             ACTIVE_USERS := ACTIVE_USERS w;
             PREDICTIONS := counter_inc prediction (PREDICTIONS w) |}).

Definition REQUEST_DURATION_observe (d : pyfloat) : M World () := fun w =>
  (Ok (), {| calls := calls w; REQUEST_COUNT := REQUEST_COUNT w;
             REQUEST_DURATION := (REQUEST_DURATION w ++ [d])%list;
             ACTIVE_USERS := ACTIVE_USERS w;
             PREDICTIONS := PREDICTIONS w |}).

Definition log_call (c : model_call) (w : World) : World :=
  {| calls := (calls w ++ [c])%list; REQUEST_COUNT := REQUEST_COUNT w;
     REQUEST_DURATION := REQUEST_DURATION w;
     ACTIVE_USERS := ACTIVE_USERS w;
     PREDICTIONS := PREDICTIONS w |}.

Definition call_predict (m : Model) (df : DataFrame) : M World (list Z) :=
  fun w => (predict_method m df, log_call (CallPredict df) w).

Definition call_predict_proba (m : Model) (df : DataFrame)
  : M World (list (list pyfloat)) :=
  match predict_proba_method m with
  | None => raise (AttributeError (class_name m) "predict_proba")
  | Some f => fun w => (f df, log_call (CallPredictProba df) w)
  end.

Record Request := { method : string; path : string; body : json }.

(** ** The middleware

    [call_next] is awaited: it completes or the request is cancelled. *)
Definition prometheus_metrics (request : Request)
    (call_next : Request -> Async World Response) : Async World Response :=
  (run ACTIVE_USERS_inc ;;;
   try_except_Exception
     (response <- call_next request ;;
      run (REQUEST_COUNT_inc (method request) (path request)
             (status_code response)) ;;;
      run ACTIVE_USERS_dec ;;;
      run (ret response))
     (fun e =>
        run ACTIVE_USERS_dec ;;;
        run (REQUEST_COUNT_inc (method request) (path request) 500) ;;;
        run (raise e)))%async.

(** ** The routes *)
Definition root : outcome :=
  Return [("message", JStr "Heart Disease API (MONITORED) ✅");
          ("metrics", JStr "/metrics")].

(** [patient.dict()]: the fields in declaration order. *)
Definition dict (patient : HeartPatient) : list (string * cell) :=
  [("age", CFloat (age patient)); ("sex", CInt (sex patient));
   ("cp", CInt (cp patient)); ("trestbps", CFloat (trestbps patient));
   ("chol", CFloat (chol patient)); ("fbs", CInt (fbs patient));
   ("restecg", CInt (restecg patient)); ("thalach", CFloat (thalach patient));
   ("exang", CInt (exang patient)); ("oldpeak", CFloat (oldpeak patient));
   ("slope", CInt (slope patient)); ("ca", CFloat (ca patient));
   ("thal", CInt (thal patient))].

Definition feature_columns : list string :=
  ["age"; "sex"; "cp"; "trestbps"; "chol"; "fbs"; "restecg";
   "thalach"; "exang"; "oldpeak"; "slope"; "ca"; "thal"].

Definition features_of (patient : HeartPatient) : result DataFrame :=
  select_columns (DataFrame_of_record (dict patient)) feature_columns.

Section Routes.

(** Python's [round(x, 4)] and the format [f"{x:.3f}"], both from the
    interpreter. *)
Variable round4 : pyfloat -> pyfloat.
Variable format3 : pyfloat -> string.

(** [duration] is what the clock gives for
    [(datetime.now() - start_time).total_seconds()]. *)
Definition predict_body (m : Model) (duration : pyfloat)
    (patient : HeartPatient) : M World (list (string * json)) :=
  test_df <- lift (features_of patient) ;;
  labels <- call_predict m test_df ;;
  prediction <- lift (index "array" labels 0) ;;
  probs <- call_predict_proba m test_df ;;
  row <- lift (index "array" probs 0) ;;
  probability <- lift (index "array" row 1) ;;
  PREDICTIONS_inc prediction ;;;
  let risk_level :=
    if float_gt probability 0.5%float then "HIGH RISK" else "LOW RISK" in
  REQUEST_DURATION_observe duration ;;;
  ret [("prediction", JInt prediction);
       ("confidence", JFloat (round4 probability));
       ("risk_level", JStr risk_level);
       ("response_time", JStr (format3 duration ++ "s"))].

Definition predict (m : Model) (duration : pyfloat) (patient : HeartPatient)
  : World -> outcome * World :=
  fun w =>
    match predict_body m duration patient w with
    | (Ok d, w') => (Return d, w')
    | (Raise e, w') =>
        (HTTPException 400 ("Prediction error: " ++ exn_str e), w')
    end.

(** The two routes as the middleware calls them.  FastAPI answers
    [HTTPException] and validation errors itself, so these come back from
    [call_next] as responses; an exception of the rendering comes back
    raised. *)
Definition GET_root (request : Request) : M World Response :=
  lift (respond root).

Definition POST_predict (c : Coercion) (m : Model) (duration : pyfloat)
    (request : Request) : M World Response :=
  fun w =>
    match validate c (body request) with
    | RequestValidationError errors => (Ok (unprocessable errors), w)
    | Valid patient =>
        let (o, w') := predict m duration patient w in (respond o, w')
    end.

(** What the framework answers by itself on every other method and path
    (the generated documentation, the metrics exposition, 404 and 405), from
    the request and what it reads of the world. *)
Variable elsewhere : Request -> World -> Response.

(** The application the middleware wraps. *)
Definition app (c : Coercion) (m : Model) (duration : pyfloat)
    (request : Request) : M World Response :=
  if String.eqb (method request) "GET" && String.eqb (path request) "/"
  then GET_root request
  else if String.eqb (method request) "POST"
          && String.eqb (path request) "/predict"
  then POST_predict c m duration request
  else fun w => (Ok (elsewhere request w), w).

End Routes.

(** Running the service: the module is imported, then served.  When the
    import raises there is no process to answer. *)
Definition serve_GET_root (env : Env) (request : Request)
  : option (M World Response) :=
  match model env with
  | Ok _ => Some (GET_root request)
  | Raise _ => None
  end.

End Monitor.


(** * Vocabulary of the properties *)

(** The frame a recorded call was made on. *)
Definition call_frame (c : model_call) : DataFrame :=
  match c with CallPredict df | CallPredictProba df => df end.

(** The body of a decision of the deployment service, from the label and
    the probability it reports. *)
Definition decision (label : Z) (p : pyfloat) : list (string * json) :=
  [("prediction", JInt label); ("probability", JFloat p);
   ("risk", JStr (if float_gt p 0.5%float then "HIGH" else "LOW"))].

(** The body of a decision of the monitored service, from the label, the
    probability the model gave and the measured duration. *)
Definition monitored_decision (round4 : pyfloat -> pyfloat)
    (format3 : pyfloat -> string) (label : Z) (p duration : pyfloat)
  : list (string * json) :=
  [("prediction", JInt label);
   ("confidence", JFloat (round4 p));
   ("risk_level",
    JStr (if float_gt p 0.5%float then "HIGH RISK" else "LOW RISK"));
   ("response_time", JStr (format3 duration ++ "s"))].

(** The globals of the deployment service in each availability state. *)
Definition LOADED (m : Model) : Deployment.Globals :=
  {| Deployment.model := Some m; Deployment.load_error := None |}.

Definition LOAD_FAILED (reason : string) : Deployment.Globals :=
  {| Deployment.model := None; Deployment.load_error := Some reason |}.

Definition NOT_LOADED : Deployment.Globals :=
  {| Deployment.model := None; Deployment.load_error := None |}.

(** The record and the stub of the end-to-end scenario. *)
Definition scenario_record : HeartPatient :=
  {| age := 45%float; sex := 1; cp := 0; trestbps := 120%float;
     chol := 200%float; fbs := 0; restecg := 0; thalach := 150%float;
     exang := 0; oldpeak := 0.0%float; slope := 1; ca := 0%float; thal := 3 |}.

Definition stub (label : Z) (p0 p1 : pyfloat) : Model :=
  {| class_name := "Stub";
     predict_method := fun _ => Ok [label];
     predict_proba_method := Some (fun _ => Ok [[p0; p1]]) |}.

(** A handle without [predict_proba]. *)
Definition label_only_stub (label : Z) : Model :=
  {| class_name := "LabelOnly";
     predict_method := fun _ => Ok [label];
     predict_proba_method := None |}.

Definition fresh_world : Monitor.World :=
  {| Monitor.calls := []; Monitor.REQUEST_COUNT := ∅;
     Monitor.REQUEST_DURATION := []; Monitor.ACTIVE_USERS := 0;
     Monitor.PREDICTIONS := ∅ |}.

(** A handler the middleware may wrap leaves the in-flight gauge, or the
    request counter, as it found it: no route touches either. *)
Definition keeps_gauge (h : Monitor.Request -> Async Monitor.World Response)
  : Prop :=
  forall request w,
    Monitor.ACTIVE_USERS (snd (h request w)) = Monitor.ACTIVE_USERS w.

Definition keeps_request_count
    (h : Monitor.Request -> Async Monitor.World Response) : Prop :=
  forall request w,
    Monitor.REQUEST_COUNT (snd (h request w)) = Monitor.REQUEST_COUNT w.

(** The sum of a counter family over all its label values. *)
Definition counter_total `{Countable K} (m : gmap K Z) : Z :=
  map_fold (fun _ v acc => v + acc) 0 m.

(** A handler without an [await] of its own, as the middleware awaits it. *)
Definition awaited (h : Monitor.Request -> M Monitor.World Response)
  : Monitor.Request -> Async Monitor.World Response :=
  fun request => run (h request).

Definition failing_handler (e : exn)
  : Monitor.Request -> Async Monitor.World Response :=
  fun _ => run (raise e).

(** A request cancelled while the middleware awaits [call_next], before the
    application has done anything. *)
Definition cancelled_handler
  : Monitor.Request -> Async Monitor.World Response :=
  fun _ w => (Cancelled, w).

Definition probe : Monitor.Request :=
  {| Monitor.method := "GET"; Monitor.path := "/"; Monitor.body := JNull |}.

(** The canonical order of the features, as the pipeline was fit. *)
Definition canonical_order : list string :=
  ["age"; "sex"; "cp"; "trestbps"; "chol"; "fbs"; "restecg"; "thalach";
   "exang"; "oldpeak"; "slope"; "ca"; "thal"].

(** The value a record holds under a field name. *)
Definition field_value (data : HeartPatient) (name : string) : option cell :=
  match name with
  | "age" => Some (CFloat (age data))
  | "sex" => Some (CInt (sex data))
  | "cp" => Some (CInt (cp data))
  | "trestbps" => Some (CFloat (trestbps data))
  | "chol" => Some (CFloat (chol data))
  | "fbs" => Some (CInt (fbs data))
  | "restecg" => Some (CInt (restecg data))
  | "thalach" => Some (CFloat (thalach data))
  | "exang" => Some (CInt (exang data))
  | "oldpeak" => Some (CFloat (oldpeak data))
  | "slope" => Some (CInt (slope data))
  | "ca" => Some (CFloat (ca data))
  | "thal" => Some (CInt (thal data))
  | _ => None
  end.

(** A frame is the canonical feature vector of a record: one row, the
    columns named in canonical order, and at each place the record's value of
    the field of that place. *)
Definition is_canonical (data : HeartPatient) (df : DataFrame) : Prop :=
  columns df = canonical_order
  /\ exists row,
       rows df = [row]
       /\ length row = 13%nat
       /\ forall (i : nat) name,
            canonical_order !! i = Some name ->
            row !! i = field_value data name.

(** The domains of the data model. *)
Definition in_domain (data : HeartPatient) : bool :=
  let among (n : Z) (l : list Z) := bool_decide (n ∈ l) in
  float_gt (age data) 0%float
  && among (sex data) [0; 1]
  && among (cp data) [0; 1; 2; 3]
  && float_gt (trestbps data) 0%float
  && float_gt (chol data) 0%float
  && among (fbs data) [0; 1]
  && among (restecg data) [0; 1; 2]
  && float_gt (thalach data) 0%float
  && among (exang data) [0; 1]
  && PrimFloat.leb 0%float (oldpeak data)
  && among (slope data) [0; 1; 2]
  && existsb (PrimFloat.eqb (ca data)) [0; 1; 2; 3; 4]%float
  && among (thal data) [1; 2; 3].

(** A record as a JSON body, every field a JSON number. *)
Definition encode (data : HeartPatient) : list (string * json) :=
  [("age", JFloat (age data)); ("sex", JInt (sex data));
   ("cp", JInt (cp data)); ("trestbps", JFloat (trestbps data));
   ("chol", JFloat (chol data)); ("fbs", JInt (fbs data));
   ("restecg", JInt (restecg data)); ("thalach", JFloat (thalach data));
   ("exang", JInt (exang data)); ("oldpeak", JFloat (oldpeak data));
   ("slope", JInt (slope data)); ("ca", JFloat (ca data));
   ("thal", JInt (thal data))].

(** A record of the right types with age, sex and thal outside their
    domains. *)
Definition out_of_domain_record : HeartPatient :=
  {| age := (-5)%float; sex := 7; cp := 0; trestbps := 120%float;
     chol := 200%float; fbs := 0; restecg := 0; thalach := 150%float;
     exang := 0; oldpeak := 0.0%float; slope := 1; ca := 0%float;
     thal := 99 |}.

(** The scenario's body without its last field. *)
Definition body_without_thal : list (string * json) :=
  [("age", JInt 45); ("sex", JInt 1); ("cp", JInt 0); ("trestbps", JInt 120);
   ("chol", JInt 200); ("fbs", JInt 0); ("restecg", JInt 0);
   ("thalach", JInt 150); ("exang", JInt 0); ("oldpeak", JFloat 0.0);
   ("slope", JInt 1); ("ca", JInt 0)].

(** * Proof tactics *)

(** One field of the schema, then the next: a field that is missing or of
    the wrong type ends both the parse and the emptiness of the errors. *)
Ltac next_field c members name :=
  destruct (json_get name members) as [?v|]; simpl;
  [ first
      [ match goal with
        | |- context [to_float c ?v] => destruct (to_float c v); simpl
        end
      | match goal with
        | |- context [to_int c ?v] => destruct (to_int c v); simpl
        end ];
    [| by split; [intros [? [=]] | intros [=]] ]
  | by split; [intros [? [=]] | intros [=]] ].


(** * The training pipeline: the columns its preprocessor names *)
Module Train.

Definition numeric_features : list string :=
  ["age"; "trestbps"; "chol"; "thalach"; "oldpeak"; "ca"].

Definition categorical_features : list string :=
  ["sex"; "cp"; "fbs"; "restecg"; "exang"; "slope"; "thal"].

(** The [ColumnTransformer] hands each of its two pipelines the columns it
    was given by name, looked up in the frame. *)
Definition preprocessor_inputs (df : DataFrame)
  : result (DataFrame * DataFrame) :=
  match select_columns df numeric_features with
  | Ok num =>
      match select_columns df categorical_features with
      | Ok cat => Ok (num, cat)
      | Raise e => Raise e
      end
  | Raise e => Raise e
  end.

End Train.

(** * Further vocabulary *)

(** The exception of rendering a float that is not finite. *)
Definition not_json_compliant : exn :=
  Exn "ValueError" "Out of range float values are not JSON compliant".

(** Handles that raise. *)
Definition raising_stub (e : exn) : Model :=
  {| class_name := "Raising";
     predict_method := fun _ => Raise e;
     predict_proba_method := Some (fun _ => Raise e) |}.

Definition proba_raising_stub (label : Z) (e : exn) : Model :=
  {| class_name := "ProbaRaising";
     predict_method := fun _ => Ok [label];
     predict_proba_method := Some (fun _ => Raise e) |}.

(** The names of the fields of [HeartPatient] annotated with a type. *)
Definition fields_annotated (ty : annotation) : list string :=
  omap (fun f : string * annotation =>
          match snd f, ty with
          | TFloat, TFloat | TInt, TInt => Some (fst f)
          | _, _ => None
          end) schema.

(** The world the monitored service leaves after a decision: both calls
    recorded, the label counted, the duration observed. *)
Definition after_decision (w : Monitor.World) (df : DataFrame) (label : Z)
    (duration : pyfloat) : Monitor.World :=
  {| Monitor.calls :=
       (Monitor.calls w ++ [CallPredict df; CallPredictProba df])%list;
     Monitor.REQUEST_COUNT := Monitor.REQUEST_COUNT w;
     Monitor.REQUEST_DURATION := (Monitor.REQUEST_DURATION w ++ [duration])%list;
     Monitor.ACTIVE_USERS := Monitor.ACTIVE_USERS w;
     Monitor.PREDICTIONS :=
       Monitor.counter_inc label (Monitor.PREDICTIONS w) |}.

(** Membership in a list that is written out. *)
Ltac listed :=
  repeat first [apply list_elem_of_here | apply list_elem_of_further].
(** * Reasoning about computations *)

Lemma bind_Ok {S A B} (c : M S A) (k : A -> M S B) s b s' :
  bind c k s = (Ok b, s') ->
  exists a s1, c s = (Ok a, s1) /\ k a s1 = (Ok b, s').
Proof.
  unfold bind. destruct (c s) as [[a|e] s1]; [eauto | discriminate].
Qed.

Lemma lift_Ok {S A} (r : result A) (s : S) a s' :
  lift r s = (Ok a, s') -> r = Ok a /\ s' = s.
Proof. unfold lift. intros [= -> ->]. done. Qed.

Lemma ret_Ok {S A} (x : A) (s : S) a s' :
  ret x s = (Ok a, s') -> a = x /\ s' = s.
Proof. unfold ret. intros [= -> ->]. done. Qed.

Lemma index_Ok {A} what (l : list A) i a :
  index what l i = Ok a -> nth_error l i = Some a.
Proof. unfold index. destruct (nth_error l i); [intros [= ->]; done | discriminate]. Qed.

(** * The deployment service: what a returned decision is made of *)

Lemma Deployment_predict_body_Ok g data w d w' :
  Deployment.predict_body g data w = (Ok d, w') ->
  exists m df labels label p,
    Deployment.model g = Some m /\
    Deployment.features_of data = Ok df /\
    predict_method m df = Ok labels /\
    nth_error labels 0 = Some label /\
    d = decision label p /\
    match predict_proba_method m with
    | Some f =>
        exists probs row,
          f df = Ok probs /\ nth_error probs 0 = Some row /\
          nth_error row 1 = Some p /\
          w' = (w ++ [CallPredict df; CallPredictProba df])%list
    | None =>
        float_of_int label = Ok p /\
        w' = (w ++ [CallPredict df; CallPredict df])%list
    end.
Proof.
  unfold Deployment.predict_body. intros H.
  apply bind_Ok in H as (df & s0 & Hdf & H).
  apply lift_Ok in Hdf as [Hdf ->].
  apply bind_Ok in H as (labels & s1 & Hlab & H).
  unfold Deployment.call_predict in Hlab.
  unfold Deployment.hasattr_predict_proba, Deployment.call_predict_proba,
    Deployment.call_predict in H.
  destruct (Deployment.model g) as [m|] eqn:Hm; [|discriminate].
  injection Hlab as Hlab <-.
  apply bind_Ok in H as (label & s2 & Hl & H).
  apply lift_Ok in Hl as [Hl ->]. apply index_Ok in Hl.
  apply bind_Ok in H as (p & s3 & Hp & H).
  apply ret_Ok in H as [-> ->].
  exists m, df, labels, label, p.
  do 5 (split; [done|]).
  destruct (predict_proba_method m) as [f|] eqn:Hf; simpl in Hp.
  - apply bind_Ok in Hp as (probs & s4 & Hpr & Hp).
    injection Hpr as Hpr <-.
    apply bind_Ok in Hp as (row & s5 & Hrow & Hp).
    apply lift_Ok in Hrow as [Hrow ->]. apply index_Ok in Hrow.
    apply lift_Ok in Hp as [Hp ->]. apply index_Ok in Hp.
    exists probs, row. rewrite <- app_assoc. done.
  - apply bind_Ok in Hp as (labels' & s4 & Hlab' & Hp).
    injection Hlab' as Hlab' <-.
    apply bind_Ok in Hp as (label' & s5 & Hl' & Hp).
    apply lift_Ok in Hl' as [Hl' ->]. apply index_Ok in Hl'.
    apply lift_Ok in Hp as [Hp ->].
    rewrite Hlab in Hlab'. injection Hlab' as <-.
    rewrite Hl in Hl'. injection Hl' as <-.
    rewrite <- app_assoc. done.
Qed.

(** * The monitored service: what a returned decision is made of *)

Section MonitorDecision.

Variable round4 : pyfloat -> pyfloat.
Variable format3 : pyfloat -> string.

Lemma Monitor_predict_body_Ok m duration patient w d w' :
  Monitor.predict_body round4 format3 m duration patient w = (Ok d, w') ->
  exists df labels label f probs row p,
    Monitor.features_of patient = Ok df /\
    predict_method m df = Ok labels /\
    nth_error labels 0 = Some label /\
    predict_proba_method m = Some f /\
    f df = Ok probs /\ nth_error probs 0 = Some row /\
    nth_error row 1 = Some p /\
    d = monitored_decision round4 format3 label p duration /\
    Monitor.calls w' =
      (Monitor.calls w ++ [CallPredict df; CallPredictProba df])%list /\
    Monitor.ACTIVE_USERS w' = Monitor.ACTIVE_USERS w /\
    Monitor.REQUEST_COUNT w' = Monitor.REQUEST_COUNT w.
Proof.
  unfold Monitor.predict_body. intros H.
  apply bind_Ok in H as (df & s0 & Hdf & H).
  apply lift_Ok in Hdf as [Hdf ->].
  apply bind_Ok in H as (labels & s1 & Hlab & H).
  injection Hlab as Hlab <-.
  apply bind_Ok in H as (label & s2 & Hl & H).
  apply lift_Ok in Hl as [Hl ->]. apply index_Ok in Hl.
  apply bind_Ok in H as (probs & s3 & Hpr & H).
  unfold Monitor.call_predict_proba in Hpr.
  destruct (predict_proba_method m) as [f|] eqn:Hf; [|discriminate].
  injection Hpr as Hpr <-.
  apply bind_Ok in H as (row & s4 & Hrow & H).
  apply lift_Ok in Hrow as [Hrow ->]. apply index_Ok in Hrow.
  apply bind_Ok in H as (p & s5 & Hp & H).
  apply lift_Ok in Hp as [Hp ->]. apply index_Ok in Hp.
  apply bind_Ok in H as ([] & s6 & Hinc & H).
  injection Hinc as <-.
  apply bind_Ok in H as ([] & s7 & Hobs & H).
  injection Hobs as <-.
  apply ret_Ok in H as [-> ->].
  exists df, labels, label, f, probs, row, p.
  do 8 (split; [done|]). simpl.
  rewrite <- app_assoc. done.
Qed.

End MonitorDecision.

(** * The decision rule *)

(** C9: the end-to-end scenario.  The record of the scenario, served by a
    loaded stub whose [predict] gives label 1 and whose [predict_proba] gives
    [0.3, 0.7], is answered 200 with prediction 1, probability 0.7 and risk
    "HIGH". *)
Theorem C9_end_to_end_high :
  forall w,
    fst (Deployment.predict (LOADED (stub 1 0.3 0.7)) scenario_record w)
    = Return [("prediction", JInt 1); ("probability", JFloat 0.7%float);
              ("risk", JStr "HIGH")]
    /\ respond (fst (Deployment.predict (LOADED (stub 1 0.3 0.7))
                       scenario_record w))
       = Ok {| status_code := 200;
               content := JObj [("prediction", JInt 1);
                                ("probability", JFloat 0.7%float);
                                ("risk", JStr "HIGH")] |}.
Proof. intros w. split; reflexivity. Qed.

Lemma half_is_not_above_half : float_gt 0.5%float 0.5%float = false.
Proof. reflexivity. Qed.

(** C2: in every decision either service returns, the risk tier is the high
    one exactly when the probability is strictly above 0.5; at exactly 0.5 it
    is the low one.  In the deployment service the probability is the one
    reported in the decision; in the monitored service it is the positive-class
    probability the model gave (the decision reports it rounded). *)
Theorem C2_risk_high_iff_above_half :
  (forall g data w d w',
      Deployment.predict g data w = (Return d, w') ->
      exists label p risk,
        d = [("prediction", JInt label); ("probability", JFloat p);
             ("risk", JStr risk)] /\
        (risk = "HIGH" \/ risk = "LOW") /\
        (risk = "HIGH" <-> float_gt p 0.5%float = true) /\
        (p = 0.5%float -> risk = "LOW"))
  /\
  (forall round4 format3 m duration patient w d w',
      Monitor.predict round4 format3 m duration patient w = (Return d, w') ->
      exists label f df probs row p risk,
        predict_proba_method m = Some f /\
        Monitor.features_of patient = Ok df /\
        f df = Ok probs /\ nth_error probs 0 = Some row /\
        nth_error row 1 = Some p /\
        d = [("prediction", JInt label); ("confidence", JFloat (round4 p));
             ("risk_level", JStr risk);
             ("response_time", JStr (format3 duration ++ "s"))] /\
        (risk = "HIGH RISK" \/ risk = "LOW RISK") /\
        (risk = "HIGH RISK" <-> float_gt p 0.5%float = true) /\
        (p = 0.5%float -> risk = "LOW RISK")).
Proof.
  split.
  - intros g data w d w' H. unfold Deployment.predict in H.
    destruct (Deployment.predict_body g data w) as [[d0|e] w0] eqn:Hb;
      [|discriminate].
    injection H as <- <-.
    apply Deployment_predict_body_Ok in Hb
      as (m & df & labels & label & p & _ & _ & _ & _ & -> & _).
    exists label, p, (if float_gt p 0.5%float then "HIGH" else "LOW").
    split; [reflexivity|].
    destruct (float_gt p 0.5%float) eqn:Hgt.
    + repeat split; auto. intros ->. rewrite half_is_not_above_half in Hgt.
      discriminate.
    + repeat split; auto; discriminate.
  - intros round4 format3 m duration patient w d w' H.
    unfold Monitor.predict in H.
    destruct (Monitor.predict_body round4 format3 m duration patient w)
      as [[d0|e] w0] eqn:Hb; [|discriminate].
    injection H as <- <-.
    apply Monitor_predict_body_Ok in Hb
      as (df & labels & label & f & probs & row & p
          & Hdf & _ & _ & Hf & Hpr & Hrow & Hp & -> & _).
    exists label, f, df, probs, row, p,
      (if float_gt p 0.5%float then "HIGH RISK" else "LOW RISK").
    do 5 (split; [done|]). split; [reflexivity|].
    destruct (float_gt p 0.5%float) eqn:Hgt.
    + repeat split; auto. intros ->. rewrite half_is_not_above_half in Hgt.
      discriminate.
    + repeat split; auto; discriminate.
Qed.

(** The theorem at work on both services: a stub at exactly 0.5 is answered
    with the low tier. *)
Lemma C2_risk_at_half_witness :
  (exists label p risk,
      decision 0 0.5%float
      = [("prediction", JInt label); ("probability", JFloat p);
         ("risk", JStr risk)] /\
      (risk = "HIGH" \/ risk = "LOW") /\
      (risk = "HIGH" <-> float_gt p 0.5%float = true) /\
      (p = 0.5%float -> risk = "LOW"))
  /\ fst (Deployment.predict (LOADED (stub 0 0.5 0.5)) scenario_record [])
     = Return (decision 0 0.5%float)
  /\ decision 0 0.5%float
     = [("prediction", JInt 0); ("probability", JFloat 0.5%float);
        ("risk", JStr "LOW")].
Proof.
  split; [|split; reflexivity].
  exact (proj1 C2_risk_high_iff_above_half
               (LOADED (stub 0 0.5 0.5)) scenario_record []
               _ _ eq_refl).
Defined.

(** * Availability *)

(** C1: with no model loaded, whether or not a load failure was recorded,
    the deployment service answers [/predict] with status 400 and the text of
    the AttributeError raised on [None]; the recorded reason is not read.  No
    call reaches a model. *)
Theorem C1_not_loaded_is_answered_400 :
  forall (recorded : option string) data w,
    let g := {| Deployment.model := None; Deployment.load_error := recorded |} in
    Deployment.predict g data w
    = (HTTPException 400 "'NoneType' object has no attribute 'predict'", w)
    /\ fst (Deployment.POST_predict json_numbers g
              (JObj [("age", JInt 45); ("sex", JInt 1); ("cp", JInt 0);
                     ("trestbps", JInt 120); ("chol", JInt 200);
                     ("fbs", JInt 0); ("restecg", JInt 0);
                     ("thalach", JInt 150); ("exang", JInt 0);
                     ("oldpeak", JFloat 0.0); ("slope", JInt 1);
                     ("ca", JInt 0); ("thal", JInt 3)]) w)
       = {| status_code := 400;
            content :=
              JObj [("detail",
                     JStr "'NoneType' object has no attribute 'predict'")] |}.
Proof. intros recorded data w g. split; reflexivity. Qed.

Lemma Deployment_load_missing env p :
  path_exists env p = false ->
  Deployment.load env p = LOAD_FAILED ("Model file not found: " ++ p).
Proof. intros H. unfold Deployment.load. rewrite H. reflexivity. Qed.

Lemma Deployment_load_raises env p e :
  path_exists env p = true -> joblib_load env p = Raise e ->
  Deployment.load env p = LOAD_FAILED (exn_str e).
Proof. intros H He. unfold Deployment.load. rewrite H, He. reflexivity. Qed.

Lemma Deployment_load_ok env p m :
  path_exists env p = true -> joblib_load env p = Ok (Some m) ->
  Deployment.load env p = LOADED m.
Proof. intros H He. unfold Deployment.load. rewrite H, He. reflexivity. Qed.

Lemma Deployment_load_None env p :
  path_exists env p = true -> joblib_load env p = Ok None ->
  Deployment.load env p = NOT_LOADED.
Proof. intros H He. unfold Deployment.load. rewrite H, He. reflexivity. Qed.

(** C5: when [joblib.load] raises (the artifact is missing or does not
    unpickle), the import of the monitored service raises the same exception:
    the process does not start and no failure state is recorded.  On the same
    machine the deployment service records the failure, with the not-found
    message naming the path or the text of the exception, and goes on. *)
Theorem C5_monitor_import_raises :
  forall (exists_ : string -> bool) e p,
    let env := {| path_exists := exists_; joblib_load := fun _ => Raise e |} in
    Monitor.model env = Raise e
    /\ Deployment.load env p
       = LOAD_FAILED (if exists_ p then exn_str e
                      else "Model file not found: " ++ p).
Proof.
  intros exists_ e p env. split; [reflexivity|].
  unfold Deployment.load. simpl.
  destruct (exists_ p); reflexivity.
Qed.

Lemma float_of_label :
  float_of_int 0 = Ok 0%float /\ float_of_int 1 = Ok 1%float.
Proof. split; vm_compute; reflexivity. Qed.

(** The deployment service falls back on the label. *)
Lemma Deployment_falls_back_to_label cls pm data w df labels label p :
  Deployment.features_of data = Ok df ->
  pm df = Ok labels -> nth_error labels 0 = Some label ->
  float_of_int label = Ok p ->
  Deployment.predict
    (LOADED {| class_name := cls; predict_method := pm;
               predict_proba_method := None |}) data w
  = (Return (decision label p),
     (w ++ [CallPredict df; CallPredict df])%list).
Proof.
  intros Hdf Hpm Hl Hfloat.
  unfold Deployment.predict, Deployment.predict_body, bind, lift,
    Deployment.call_predict, Deployment.hasattr_predict_proba, ret, index.
  destruct labels as [|l0 rest]; [discriminate|]. injection Hl as ->.
  rewrite Hdf. simpl. rewrite Hpm. simpl. rewrite Hfloat.
  rewrite <- app_assoc. reflexivity.
Qed.

(** C4: served by a handle without [predict_proba], the monitored service
    returns no decision: it answers 400 with the text of an exception,
    whatever the handle's [predict] does.  On the same handle and record the
    deployment service returns the label as the probability. *)
Theorem C4_monitor_has_no_fallback :
  (forall round4 format3 cls pm duration patient w,
      exists detail,
        fst (Monitor.predict round4 format3
               {| class_name := cls; predict_method := pm;
                  predict_proba_method := None |} duration patient w)
        = HTTPException 400 detail)
  /\ (forall round4 format3 duration w,
         fst (Monitor.predict round4 format3 (label_only_stub 1) duration
                scenario_record w)
         = HTTPException 400
             "Prediction error: 'LabelOnly' object has no attribute 'predict_proba'")
  /\ (forall w,
         fst (Deployment.predict (LOADED (label_only_stub 1)) scenario_record w)
         = Return [("prediction", JInt 1); ("probability", JFloat 1%float);
                   ("risk", JStr "HIGH")]).
Proof.
  split; [|split].
  - intros round4 format3 cls pm duration patient w.
    unfold Monitor.predict.
    destruct (Monitor.predict_body _ _ _ _ _ _) as [[d|e] w'] eqn:Hb.
    + apply Monitor_predict_body_Ok in Hb
        as (? & ? & ? & f & ? & ? & ? & _ & _ & _ & Hf & _).
      discriminate.
    + eauto.
  - intros. reflexivity.
  - intros. vm_compute. reflexivity.
Qed.

(** C8: where the load raises, the monitored service has no process to
    answer [GET /]: its import has raised, so the probe does depend on the
    state of the model there.  On the same machine, and in every state of
    its globals, the deployment service answers the probe 200 with its fixed
    message and leaves the world alone; so does the monitored service
    whenever its import went through. *)
Theorem C8_monitor_probe_needs_the_load :
  (forall (exists_ : string -> bool) e request,
      Monitor.serve_GET_root
        {| path_exists := exists_; joblib_load := fun _ => Raise e |} request
      = None)
  /\ (forall g w,
         Deployment.GET_root g w
         = ({| status_code := 200;
               content :=
                 JObj [("message", JStr "Heart Disease Prediction API ✅")] |},
            w))
  /\ (forall env p w,
         Deployment.serve_GET_root env p w
         = ({| status_code := 200;
               content :=
                 JObj [("message", JStr "Heart Disease Prediction API ✅")] |},
            w))
  /\ (forall env request loaded,
         Monitor.model env = Ok loaded ->
         exists probe,
           Monitor.serve_GET_root env request = Some probe
           /\ forall w,
                probe w
                = (Ok {| status_code := 200;
                         content :=
                           JObj [("message",
                                  JStr "Heart Disease API (MONITORED) ✅");
                                 ("metrics", JStr "/metrics")] |}, w)).
Proof.
  split; [reflexivity|]. split; [reflexivity|]. split; [reflexivity|].
  intros env request loaded Hloaded. unfold Monitor.serve_GET_root.
  rewrite Hloaded. eexists. split; reflexivity.
Qed.

(** * The metrics middleware *)

Lemma counter_inc_lookup `{Countable K} (k : K) (m : gmap K Z) :
  Monitor.counter_inc k m !! k = Some (default 0 (m !! k) + 1).
Proof. unfold Monitor.counter_inc. apply lookup_insert_eq. Qed.

Lemma counter_inc_lookup_ne `{Countable K} (k k' : K) (m : gmap K Z) :
  k <> k' -> Monitor.counter_inc k m !! k' = m !! k'.
Proof. intros Hne. unfold Monitor.counter_inc. by apply lookup_insert_ne. Qed.

Lemma counter_total_inc `{Countable K} (k : K) (m : gmap K Z) :
  counter_total (Monitor.counter_inc k m) = counter_total m + 1.
Proof.
  unfold counter_total, Monitor.counter_inc.
  assert (Hcomm : forall z1 z2 y : Z, z1 + (z2 + y) = z2 + (z1 + y))
    by (intros; lia).
  destruct (m !! k) as [v|] eqn:Hk; simpl.
  - rewrite <- insert_delete_eq.
    rewrite map_fold_insert_L;
      [|intros; apply Hcomm | apply lookup_delete_eq].
    rewrite (map_fold_delete_L _ _ k v m); [lia | intros; apply Hcomm | done].
  - rewrite map_fold_insert_L; [lia | intros; apply Hcomm | done].
Qed.

(** The two routes leave the gauge and the request counter alone, on every
    path. *)
Lemma GET_root_keeps :
  keeps_gauge (awaited Monitor.GET_root)
  /\ keeps_request_count (awaited Monitor.GET_root).
Proof. split; intros request w; reflexivity. Qed.

Lemma Monitor_predict_keeps round4 format3 m duration patient w :
  let w' := snd (Monitor.predict round4 format3 m duration patient w) in
  Monitor.ACTIVE_USERS w' = Monitor.ACTIVE_USERS w
  /\ Monitor.REQUEST_COUNT w' = Monitor.REQUEST_COUNT w.
Proof.
  unfold Monitor.predict, Monitor.predict_body, bind, lift, ret,
    Monitor.call_predict, Monitor.call_predict_proba, raise.
  destruct (Monitor.features_of patient) as [df|e]; simpl; [|done].
  destruct (predict_method m df) as [labels|e]; simpl; [|done].
  destruct (index "array" labels 0) as [label|e]; simpl; [|done].
  destruct (predict_proba_method m) as [f|]; simpl; [|done].
  destruct (f df) as [probs|e]; simpl; [|done].
  destruct (index "array" probs 0) as [row|e]; simpl; [|done].
  destruct (index "array" row 1) as [p|e]; simpl; done.
Qed.

Lemma POST_predict_keeps_world round4 format3 c m duration request w :
  let w' := snd (Monitor.POST_predict round4 format3 c m duration request w) in
  Monitor.ACTIVE_USERS w' = Monitor.ACTIVE_USERS w
  /\ Monitor.REQUEST_COUNT w' = Monitor.REQUEST_COUNT w.
Proof.
  unfold Monitor.POST_predict.
  destruct (validate c (Monitor.body request)) as [patient|errors];
    [|done].
  pose proof (Monitor_predict_keeps round4 format3 m duration patient w)
    as [Hg Hc].
  destruct (Monitor.predict round4 format3 m duration patient w) as [o w'].
  done.
Qed.

Lemma run_snd {S A} (c : M S A) (s : S) : snd (run c s) = snd (c s).
Proof. unfold run. by destruct (c s). Qed.

Lemma POST_predict_keeps round4 format3 c m duration :
  keeps_gauge (awaited (Monitor.POST_predict round4 format3 c m duration))
  /\ keeps_request_count
       (awaited (Monitor.POST_predict round4 format3 c m duration)).
Proof.
  split; intros request w; unfold awaited; rewrite run_snd;
    apply POST_predict_keeps_world.
Qed.

Lemma app_keeps round4 format3 elsewhere c m duration :
  keeps_gauge (awaited (Monitor.app round4 format3 elsewhere c m duration))
  /\ keeps_request_count
       (awaited (Monitor.app round4 format3 elsewhere c m duration)).
Proof.
  split; intros request w; unfold awaited; rewrite run_snd;
    unfold Monitor.app;
    destruct (_ && _); try reflexivity;
    destruct (_ && _); try reflexivity;
    apply POST_predict_keeps_world.
Qed.

(** What the middleware does around a call that completes: the outcome is
    passed on, the request counted under the status of the response, or 500
    for an exception, and the gauge lowered again. *)
Lemma middleware_completed call_next request w r w1 :
  call_next request (snd (Monitor.ACTIVE_USERS_inc w)) = (Completed r, w1) ->
  let status :=
    match r with Ok response => status_code response | Raise _ => 500 end in
  Monitor.prometheus_metrics request call_next w
  = (Completed r,
     {| Monitor.calls := Monitor.calls w1;
        Monitor.REQUEST_COUNT :=
          Monitor.counter_inc
            (Monitor.method request, Monitor.path request, status)
            (Monitor.REQUEST_COUNT w1);
        Monitor.REQUEST_DURATION := Monitor.REQUEST_DURATION w1;
        Monitor.ACTIVE_USERS := Monitor.ACTIVE_USERS w1 - 1;
        Monitor.PREDICTIONS := Monitor.PREDICTIONS w1 |}).
Proof.
  intros Hcall status. subst status.
  unfold Monitor.prometheus_metrics, abind, try_except_Exception.
  simpl in *. rewrite Hcall. by destruct r.
Qed.

(** A call that is cancelled: the middleware does nothing more. *)
Lemma middleware_cancelled call_next request w w1 :
  call_next request (snd (Monitor.ACTIVE_USERS_inc w)) = (Cancelled, w1) ->
  Monitor.prometheus_metrics request call_next w = (Cancelled, w1).
Proof.
  intros Hcall.
  unfold Monitor.prometheus_metrics, abind, try_except_Exception.
  simpl in *. by rewrite Hcall.
Qed.

(** Around a handler that returns or raises an exception, the gauge is back
    at its value and the request is counted once. *)
Lemma middleware_settles_when_completed call_next request w r w1 :
  keeps_gauge call_next -> keeps_request_count call_next ->
  call_next request (snd (Monitor.ACTIVE_USERS_inc w)) = (Completed r, w1) ->
  let served := Monitor.prometheus_metrics request call_next w in
  let status :=
    match r with Ok response => status_code response | Raise _ => 500 end in
  fst served = Completed r
  /\ Monitor.ACTIVE_USERS (snd served) = Monitor.ACTIVE_USERS w
  /\ Monitor.REQUEST_COUNT (snd served)
     = Monitor.counter_inc
         (Monitor.method request, Monitor.path request, status)
         (Monitor.REQUEST_COUNT w)
  /\ counter_total (Monitor.REQUEST_COUNT (snd served))
     = counter_total (Monitor.REQUEST_COUNT w) + 1.
Proof.
  intros Hg Hc Hcall served status. subst served status.
  rewrite (middleware_completed call_next request w r w1 Hcall). simpl.
  specialize (Hg request (snd (Monitor.ACTIVE_USERS_inc w))).
  specialize (Hc request (snd (Monitor.ACTIVE_USERS_inc w))).
  rewrite Hcall in Hg, Hc. simpl in Hg, Hc. rewrite Hg, Hc.
  split; [done|]. split; [lia|]. split; [done|]. apply counter_total_inc.
Qed.

(** C7: a request cancelled while the middleware awaits [call_next] leaves
    through neither the end of the [try] block nor the [except Exception]
    handler: the cancellation goes on up and the in-flight gauge stays one
    above the value it had before the request. *)
Theorem C7_cancelled_request_leaves_gauge_up :
  forall request w,
    let served := Monitor.prometheus_metrics request cancelled_handler w in
    fst served = Cancelled
    /\ Monitor.ACTIVE_USERS (snd served) = Monitor.ACTIVE_USERS w + 1.
Proof. intros request w. split; reflexivity. Qed.

(** C10: a request cancelled while the middleware awaits [call_next] is not
    counted: neither increment of the request counter runs, no label moves
    and the total stays as it was. *)
Theorem C10_cancelled_request_is_not_counted :
  forall request w,
    let served := Monitor.prometheus_metrics request cancelled_handler w in
    fst served = Cancelled
    /\ Monitor.REQUEST_COUNT (snd served) = Monitor.REQUEST_COUNT w
    /\ counter_total (Monitor.REQUEST_COUNT (snd served))
       = counter_total (Monitor.REQUEST_COUNT w).
Proof. intros request w. repeat split. Qed.

(** * The feature vector *)

Lemma canonical_row data :
  is_canonical data
    {| columns := canonical_order;
       rows := [[CFloat (age data); CInt (sex data); CInt (cp data);
                 CFloat (trestbps data); CFloat (chol data); CInt (fbs data);
                 CInt (restecg data); CFloat (thalach data);
                 CInt (exang data); CFloat (oldpeak data); CInt (slope data);
                 CFloat (ca data); CInt (thal data)]] |}.
Proof.
  split; [reflexivity|]. eexists. split; [reflexivity|].
  split; [reflexivity|].
  intros i name Hi.
  do 13 (destruct i as [|i]; [injection Hi as <-; reflexivity|]).
  discriminate.
Qed.

Lemma Deployment_features_canonical data :
  exists df, Deployment.features_of data = Ok df /\ is_canonical data df.
Proof. eexists. split; [reflexivity | apply canonical_row]. Qed.

Lemma Monitor_features_canonical data :
  exists df, Monitor.features_of data = Ok df /\ is_canonical data df.
Proof. eexists. split; [reflexivity | apply canonical_row]. Qed.

Lemma features_agree data :
  Monitor.features_of data = Deployment.features_of data.
Proof. reflexivity. Qed.

(** Every call a request makes on the model is made on the frame built from
    the record, whether the request ends in a decision or in an error. *)
Lemma Deployment_calls_on_features g data w df :
  Deployment.features_of data = Ok df ->
  exists new,
    snd (Deployment.predict g data w) = (w ++ new)%list
    /\ Forall (fun c => call_frame c = df) new.
Proof.
  intros Hdf.
  unfold Deployment.predict, Deployment.predict_body, bind, lift, ret, raise,
    Deployment.call_predict, Deployment.call_predict_proba,
    Deployment.hasattr_predict_proba.
  rewrite Hdf.
  destruct (Deployment.model g) as [m|]; simpl;
    [|exists []; by rewrite app_nil_r].
  destruct (predict_method m df) as [labels|e]; simpl;
    [|exists [CallPredict df]; split; [done | repeat constructor]].
  destruct (index "array" labels 0) as [label|e]; simpl;
    [|exists [CallPredict df]; split; [done | repeat constructor]].
  destruct (predict_proba_method m) as [f|]; simpl.
  - destruct (f df) as [probs|e]; simpl;
      [|exists [CallPredict df; CallPredictProba df]; rewrite <- app_assoc;
        split; [done | repeat constructor]].
    destruct (index "array" probs 0) as [row|e]; simpl;
      [|exists [CallPredict df; CallPredictProba df]; rewrite <- app_assoc;
        split; [done | repeat constructor]].
    destruct (index "array" row 1) as [p|e]; simpl;
      exists [CallPredict df; CallPredictProba df]; rewrite <- app_assoc;
      (split; [done | repeat constructor]).
  - unfold lift. destruct (float_of_int label) as [p|e]; simpl;
      exists [CallPredict df; CallPredict df]; rewrite <- app_assoc;
      (split; [done | repeat constructor]).
Qed.

Lemma Monitor_calls_on_features round4 format3 m duration data w df :
  Monitor.features_of data = Ok df ->
  exists new,
    Monitor.calls (snd (Monitor.predict round4 format3 m duration data w))
    = (Monitor.calls w ++ new)%list
    /\ Forall (fun c => call_frame c = df) new.
Proof.
  intros Hdf.
  unfold Monitor.predict, Monitor.predict_body, bind, lift, ret, raise,
    Monitor.call_predict, Monitor.call_predict_proba.
  rewrite Hdf.
  destruct (predict_method m df) as [labels|e]; simpl;
    [|exists [CallPredict df]; split; [done | repeat constructor]].
  destruct (index "array" labels 0) as [label|e]; simpl;
    [|exists [CallPredict df]; split; [done | repeat constructor]].
  destruct (predict_proba_method m) as [f|]; simpl;
    [|exists [CallPredict df]; split; [done | repeat constructor]].
  destruct (f df) as [probs|e]; simpl;
    [|exists [CallPredict df; CallPredictProba df]; rewrite <- app_assoc;
      split; [done | repeat constructor]].
  destruct (index "array" probs 0) as [row|e]; simpl;
    [|exists [CallPredict df; CallPredictProba df]; rewrite <- app_assoc;
      split; [done | repeat constructor]].
  destruct (index "array" row 1) as [p|e]; simpl;
    exists [CallPredict df; CallPredictProba df]; rewrite <- app_assoc;
    (split; [done | repeat constructor]).
Qed.

(** * The order of the fields in the body *)

Lemma json_get_elem_of k v members :
  json_get k members = Some v -> (k, v) ∈ members.
Proof.
  induction members as [|[k' v'] rest IH]; simpl; [discriminate|].
  destruct (json_get k rest) as [v''|].
  - intros [= ->]. right. by apply IH.
  - destruct (String.eqb_spec k k') as [->|]; [|discriminate].
    intros [= ->]. left.
Qed.

Lemma json_get_None k members :
  k ∉ members.*1 -> json_get k members = None.
Proof.
  intros Hk. destruct (json_get k members) as [v|] eqn:Hget; [|done].
  apply json_get_elem_of in Hget. destruct Hk.
  apply list_elem_of_fmap. by exists (k, v).
Qed.

Lemma elem_of_json_get k v members :
  NoDup members.*1 -> (k, v) ∈ members -> json_get k members = Some v.
Proof.
  induction members as [|[k' v'] rest IH]; simpl; intros Hnd Hin.
  - by apply elem_of_nil in Hin.
  - apply NoDup_cons in Hnd as [Hfresh Hnd].
    apply elem_of_cons in Hin as [[= <- <-]|Hin].
    + rewrite json_get_None by done. by rewrite String.eqb_refl.
    + by rewrite (IH Hnd Hin).
Qed.

Lemma json_get_permutation k members members' :
  NoDup members.*1 -> members ≡ₚ members' ->
  json_get k members' = json_get k members.
Proof.
  intros Hnd Hperm.
  assert (Hnd' : NoDup members'.*1) by by rewrite <- Hperm.
  destruct (json_get k members) as [v|] eqn:Hget.
  - apply elem_of_json_get; [done|]. rewrite <- Hperm.
    by apply json_get_elem_of.
  - destruct (json_get k members') as [v'|] eqn:Hget'; [|done].
    apply json_get_elem_of in Hget'. rewrite <- Hperm in Hget'.
    apply (elem_of_json_get _ _ _ Hnd) in Hget'. congruence.
Qed.

Lemma parse_permutation c members members' :
  NoDup members.*1 -> members ≡ₚ members' ->
  parse c members' = parse c members.
Proof.
  intros Hnd Hperm. unfold parse. cbv zeta.
  by rewrite !(json_get_permutation _ members members' Hnd Hperm).
Qed.

(** C3: take a record accepted from a body.  The same members supplied in
    any other order give the same record.  Both services build from it the
    same frame, which is one row with the 13 fields in the canonical order,
    each place holding the record's value of that field; and every call
    either service makes on the model while it serves the record is made on
    that frame. *)
Theorem C3_canonical_feature_order c members members' data :
  NoDup members.*1 -> members ≡ₚ members' ->
  parse c members = Some data ->
  parse c members' = Some data
  /\ exists df,
       Deployment.features_of data = Ok df
       /\ Monitor.features_of data = Ok df
       /\ is_canonical data df
       /\ (forall g w,
             exists new,
               snd (Deployment.predict g data w) = (w ++ new)%list
               /\ Forall (fun call => call_frame call = df) new)
       /\ (forall round4 format3 m duration w,
             exists new,
               Monitor.calls
                 (snd (Monitor.predict round4 format3 m duration data w))
               = (Monitor.calls w ++ new)%list
               /\ Forall (fun call => call_frame call = df) new).
Proof.
  intros Hnd Hperm Hparse. split.
  - by rewrite (parse_permutation c members members' Hnd Hperm).
  - destruct (Deployment_features_canonical data) as (df & Hdf & Hcanon).
    exists df. split; [done|]. split; [by rewrite features_agree|].
    split; [done|]. split.
    + intros g w. by apply Deployment_calls_on_features.
    + intros round4 format3 m duration w.
      apply Monitor_calls_on_features. by rewrite features_agree.
Qed.

Lemma parse_encode data : parse json_numbers (encode data) = Some data.
Proof. destruct data. reflexivity. Qed.

Lemma C3_canonical_order_witness :
  parse json_numbers (reverse (encode scenario_record)) = Some scenario_record
  /\ exists df,
       Deployment.features_of scenario_record = Ok df
       /\ Monitor.features_of scenario_record = Ok df
       /\ is_canonical scenario_record df
       /\ (forall g w,
             exists new,
               snd (Deployment.predict g scenario_record w) = (w ++ new)%list
               /\ Forall (fun call => call_frame call = df) new)
       /\ (forall round4 format3 m duration w,
             exists new,
               Monitor.calls
                 (snd (Monitor.predict round4 format3 m duration
                         scenario_record w))
               = (Monitor.calls w ++ new)%list
               /\ Forall (fun call => call_frame call = df) new).
Proof.
  apply (C3_canonical_feature_order json_numbers (encode scenario_record)).
  - apply (bool_decide_unpack _). vm_compute. reflexivity.
  - symmetry. apply reverse_Permutation.
  - reflexivity.
Defined.

(** * Validation at the boundary *)

Lemma parse_is_Some c members :
  is_Some (parse c members) <-> field_errors c members = [].
Proof.
  unfold parse, field_errors, schema, check_field. cbv zeta. simpl.
  next_field c members "age". next_field c members "sex".
  next_field c members "cp". next_field c members "trestbps".
  next_field c members "chol". next_field c members "fbs".
  next_field c members "restecg". next_field c members "thalach".
  next_field c members "exang". next_field c members "oldpeak".
  next_field c members "slope". next_field c members "ca".
  next_field c members "thal".
  split; [done | eauto].
Qed.

Lemma omap_not_nil {A B} (f : A -> option B) (l : list A) :
  omap f l <> [] <-> exists x, x ∈ l /\ is_Some (f x).
Proof.
  induction l as [|a l IH]; simpl.
  - split; [done|]. intros (x & Hx & _). by apply elem_of_nil in Hx.
  - destruct (f a) as [b|] eqn:Hfa.
    + split; [|done]. intros _. exists a. split; [left|]. by rewrite Hfa.
    + rewrite IH. split.
      * intros (x & Hx & Hsome). exists x. split; [by right | done].
      * intros (x & [->|Hx]%elem_of_cons & Hsome).
        -- rewrite Hfa in Hsome. by apply is_Some_None in Hsome.
        -- eauto.
Qed.

Lemma rejected_iff_some_field_fails c members :
  parse c members = None <->
  exists f, f ∈ schema /\ is_Some (check_field c members f).
Proof.
  rewrite eq_None_not_Some, parse_is_Some. unfold field_errors.
  apply omap_not_nil.
Qed.

Lemma rejected_before_the_route c members :
  parse c members = None ->
  validate c (JObj members) = RequestValidationError (field_errors c members)
  /\ (forall g w,
        Deployment.POST_predict c g (JObj members) w
        = (unprocessable (field_errors c members), w))
  /\ (forall round4 format3 m duration request w,
        Monitor.body request = JObj members ->
        Monitor.POST_predict round4 format3 c m duration request w
        = (Ok (unprocessable (field_errors c members)), w)).
Proof.
  intros Hparse.
  assert (Hv : validate c (JObj members)
               = RequestValidationError (field_errors c members))
    by (unfold validate; by rewrite Hparse).
  split; [done|]. split.
  - intros g w. unfold Deployment.POST_predict. by rewrite Hv.
  - intros round4 format3 m duration request w Hbody.
    unfold Monitor.POST_predict. by rewrite Hbody, Hv.
Qed.

(** Against C6 as stated: a body whose age, sex and thal lie outside their
    domains passes validation, and the deployment service builds the frame,
    calls the model on it and answers 200. *)
Lemma C6_out_of_domain_is_served :
  in_domain out_of_domain_record = false
  /\ validate json_numbers (JObj (encode out_of_domain_record))
     = Valid out_of_domain_record
  /\ exists df,
       Deployment.features_of out_of_domain_record = Ok df
       /\ Deployment.POST_predict json_numbers (LOADED (stub 1 0.3 0.7))
            (JObj (encode out_of_domain_record)) []
          = ({| status_code := 200;
                content := JObj [("prediction", JInt 1);
                                 ("probability", JFloat 0.7%float);
                                 ("risk", JStr "HIGH")] |},
             [CallPredict df; CallPredictProba df]).
Proof.
  split; [vm_compute; reflexivity|]. split; [reflexivity|].
  eexists. split; reflexivity.
Qed.

(** C6, amended: validation at the boundary is by presence and type alone.
    A body in which any of the 13 fields is missing or does not convert to
    its annotated type is answered 422 by both services, the error of that
    field is among those reported whatever the other fields are, and neither
    the route nor the model is reached (the world is as before).  A body in
    which every field is present and converts is accepted; no domain is
    checked, so every record, sent as JSON numbers, is accepted as it is. *)
Theorem C6_fields_required_and_typed :
  (forall c members f,
      f ∈ schema -> is_Some (check_field c members f) ->
      (exists e, check_field c members f = Some e
                 /\ e ∈ field_errors c members)
      /\ validate c (JObj members)
         = RequestValidationError (field_errors c members)
      /\ status_code (unprocessable (field_errors c members)) = 422
      /\ (forall g w,
            Deployment.POST_predict c g (JObj members) w
            = (unprocessable (field_errors c members), w))
      /\ (forall round4 format3 m duration request w,
            Monitor.body request = JObj members ->
            Monitor.POST_predict round4 format3 c m duration request w
            = (Ok (unprocessable (field_errors c members)), w)))
  /\ (forall c members,
         (forall f, f ∈ schema -> check_field c members f = None) ->
         exists data, validate c (JObj members) = Valid data)
  /\ (forall data, validate json_numbers (JObj (encode data)) = Valid data).
Proof.
  split; [|split].
  - intros c members f Hf [e He]. split.
    + exists e. split; [done|]. unfold field_errors.
      apply list_elem_of_omap. eauto.
    + assert (Hparse : parse c members = None)
        by (apply rejected_iff_some_field_fails; eauto).
      destruct (rejected_before_the_route c members Hparse) as (Hv & Hd & Hm).
      eauto.
  - intros c members Hall.
    destruct (parse c members) as [data|] eqn:Hparse.
    + exists data. unfold validate. by rewrite Hparse.
    + apply rejected_iff_some_field_fails in Hparse as (f & Hf & Hsome).
      rewrite (Hall f Hf) in Hsome. by apply is_Some_None in Hsome.
  - intros data. unfold validate. by rewrite parse_encode.
Qed.

Lemma C6_missing_thal_witness :
  (exists e, check_field json_numbers body_without_thal ("thal", TInt) = Some e
             /\ e ∈ field_errors json_numbers body_without_thal)
  /\ field_errors json_numbers body_without_thal = [Missing "thal"]
  /\ (forall g w,
        Deployment.POST_predict json_numbers g (JObj body_without_thal) w
        = (unprocessable [Missing "thal"], w))
  /\ (exists data,
        validate json_numbers (JObj (encode out_of_domain_record)) = Valid data).
Proof.
  destruct C6_fields_required_and_typed as (Hreject & Haccept & _).
  destruct (Hreject json_numbers body_without_thal ("thal", TInt))
    as (He & _ & _ & Hd & _).
  - unfold schema. do 12 apply list_elem_of_further. apply list_elem_of_here.
  - vm_compute. eauto.
  - split; [exact He|]. split; [reflexivity|]. split; [exact Hd|].
    apply Haccept. intros f Hf.
    unfold schema in Hf. repeat (apply elem_of_cons in Hf as [->|Hf]; [reflexivity|]).
    by apply elem_of_nil in Hf.
Defined.

(** * Further properties of the deployment service *)

Lemma Deployment_predict_with_proba m f data w df labels label probs row p :
  predict_proba_method m = Some f ->
  Deployment.features_of data = Ok df ->
  predict_method m df = Ok labels -> nth_error labels 0 = Some label ->
  f df = Ok probs -> nth_error probs 0 = Some row -> nth_error row 1 = Some p ->
  Deployment.predict (LOADED m) data w
  = (Return (decision label p),
     (w ++ [CallPredict df; CallPredictProba df])%list).
Proof.
  intros Hf Hdf Hpm Hl Hpr Hrow Hp.
  destruct labels as [|l0 labels]; [discriminate|]. injection Hl as ->.
  destruct probs as [|r0 probs]; [discriminate|]. injection Hrow as ->.
  destruct row as [|p0 [|p1 row]]; [discriminate..|]. injection Hp as ->.
  unfold Deployment.predict, Deployment.predict_body, bind, lift,
    Deployment.call_predict, Deployment.call_predict_proba,
    Deployment.hasattr_predict_proba, ret, index.
  rewrite Hdf. simpl. rewrite Hpm. simpl. rewrite Hf. simpl.
  rewrite Hpr. simpl. rewrite <- app_assoc. reflexivity.
Qed.

(** X2: served by a loaded handle, [predict] returns a decision exactly when
    the handle's [predict] gives at least one label and either the handle has
    [predict_proba] and that gives a first row with a second entry, or it has
    none and the label converts to a float without overflow.  The decision
    then carries the first label, as probability that second entry (or the
    converted label) and the tier of that probability, and the handle was
    called twice on the frame of the record. *)
Theorem Deployment_decision_iff m data w d w' :
  Deployment.predict (LOADED m) data w = (Return d, w') <->
  exists df labels label p,
    Deployment.features_of data = Ok df /\
    predict_method m df = Ok labels /\
    nth_error labels 0 = Some label /\
    d = decision label p /\
    match predict_proba_method m with
    | Some f =>
        exists probs row,
          f df = Ok probs /\ nth_error probs 0 = Some row /\
          nth_error row 1 = Some p /\
          w' = (w ++ [CallPredict df; CallPredictProba df])%list
    | None =>
        float_of_int label = Ok p /\
        w' = (w ++ [CallPredict df; CallPredict df])%list
    end.
Proof.
  split.
  - intros H. unfold Deployment.predict in H.
    destruct (Deployment.predict_body (LOADED m) data w) as [[d0|e] w0] eqn:Hb;
      [|discriminate].
    injection H as <- <-.
    apply Deployment_predict_body_Ok in Hb
      as (m' & df & labels & label & p & [= <-] & Hdf & Hpm & Hl & Hd & Hrest).
    exists df, labels, label, p. done.
  - intros (df & labels & label & p & Hdf & Hpm & Hl & -> & Hrest).
    destruct (predict_proba_method m) as [f|] eqn:Hf.
    + destruct Hrest as (probs & row & Hpr & Hrow & Hp & ->).
      by apply (Deployment_predict_with_proba m f data w df labels label probs row p).
    + destruct Hrest as [Hfloat ->].
      destruct m as [cls pm pp]. simpl in *. subst pp.
      by apply (Deployment_falls_back_to_label cls pm data w df labels label p).
Qed.

(** X3: an exception raised by the handle is answered 400 with the text of
    the exception.  When [predict] raises, [predict_proba] is not called;
    when [predict] gives a label and [predict_proba] raises, both were
    called. *)
Theorem Deployment_model_exception_is_400 m data w df e :
  Deployment.features_of data = Ok df ->
  (predict_method m df = Raise e ->
   Deployment.predict (LOADED m) data w
   = (HTTPException 400 (exn_str e), (w ++ [CallPredict df])%list))
  /\ (forall f labels label,
         predict_method m df = Ok labels -> nth_error labels 0 = Some label ->
         predict_proba_method m = Some f -> f df = Raise e ->
         Deployment.predict (LOADED m) data w
         = (HTTPException 400 (exn_str e),
            (w ++ [CallPredict df; CallPredictProba df])%list)).
Proof.
  intros Hdf. split.
  - intros Hpm.
    unfold Deployment.predict, Deployment.predict_body, bind, lift,
      Deployment.call_predict.
    rewrite Hdf. simpl. by rewrite Hpm.
  - intros f labels label Hpm Hl Hf Hraise.
    unfold Deployment.predict, Deployment.predict_body, bind, lift,
      Deployment.call_predict, Deployment.call_predict_proba,
      Deployment.hasattr_predict_proba, ret, index.
    destruct labels as [|l0 labels]; [discriminate|]. injection Hl as ->.
    rewrite Hdf. simpl. rewrite Hpm. simpl. rewrite Hf. simpl.
    rewrite Hraise. simpl. rewrite <- app_assoc. reflexivity.
Qed.

Lemma Deployment_model_exception_witness :
  (exists df,
      Deployment.features_of scenario_record = Ok df
      /\ Deployment.predict (LOADED (raising_stub (Exn "ValueError" "bad input")))
           scenario_record []
         = (HTTPException 400 "bad input", [CallPredict df]))
  /\ (exists df,
         Deployment.predict
           (LOADED (proba_raising_stub 1 (Exn "ValueError" "bad input")))
           scenario_record []
         = (HTTPException 400 "bad input",
            [CallPredict df; CallPredictProba df])).
Proof.
  split; eexists.
  - split; [reflexivity|].
    exact (proj1 (Deployment_model_exception_is_400
                    (raising_stub (Exn "ValueError" "bad input"))
                    scenario_record [] _ (Exn "ValueError" "bad input")
                    eq_refl) eq_refl).
  - exact (proj2 (Deployment_model_exception_is_400
                    (proba_raising_stub 1 (Exn "ValueError" "bad input"))
                    scenario_record [] _ (Exn "ValueError" "bad input")
                    eq_refl) _ [1] 1 eq_refl eq_refl eq_refl eq_refl).
Defined.




(** X5: without [predict_proba], a handle whose first label is 0 or 1 is
    answered with that label, the probability 0.0 or 1.0 and the tier low
    for 0 and high for 1. *)
Theorem Deployment_fallback_on_binary_label m data w df labels label :
  predict_proba_method m = None ->
  Deployment.features_of data = Ok df ->
  predict_method m df = Ok labels -> nth_error labels 0 = Some label ->
  label = 0 \/ label = 1 ->
  fst (Deployment.predict (LOADED m) data w)
  = Return [("prediction", JInt label);
            ("probability", JFloat (if Z.eqb label 1 then 1%float else 0%float));
            ("risk", JStr (if Z.eqb label 1 then "HIGH" else "LOW"))].
Proof.
  intros Hnone Hdf Hpm Hl Hbin.
  destruct m as [cls pm pp]. simpl in *. subst pp.
  destruct Hbin as [-> | ->].
  - rewrite (Deployment_falls_back_to_label cls pm data w df labels 0 0%float)
      by (done || apply float_of_label).
    reflexivity.
  - rewrite (Deployment_falls_back_to_label cls pm data w df labels 1 1%float)
      by (done || apply float_of_label).
    reflexivity.
Qed.

Lemma Deployment_fallback_witness :
  fst (Deployment.predict (LOADED (label_only_stub 0)) scenario_record [])
  = Return [("prediction", JInt 0); ("probability", JFloat 0%float);
            ("risk", JStr "LOW")].
Proof.
  exact (Deployment_fallback_on_binary_label (label_only_stub 0)
           scenario_record [] _ [0] 0 eq_refl eq_refl eq_refl eq_refl
           (or_introl eq_refl)).
Defined.

(** * Further properties of the monitored service *)

Section MonitorRoutes.

Variable round4 : pyfloat -> pyfloat.
Variable format3 : pyfloat -> string.

Lemma Monitor_predict_decides m f duration patient w df labels label probs row p :
  predict_proba_method m = Some f ->
  Monitor.features_of patient = Ok df ->
  predict_method m df = Ok labels -> nth_error labels 0 = Some label ->
  f df = Ok probs -> nth_error probs 0 = Some row -> nth_error row 1 = Some p ->
  Monitor.predict round4 format3 m duration patient w
  = (Return (monitored_decision round4 format3 label p duration),
     after_decision w df label duration).
Proof.
  intros Hf Hdf Hpm Hl Hpr Hrow Hp.
  destruct labels as [|l0 labels]; [discriminate|]. injection Hl as ->.
  destruct probs as [|r0 probs]; [discriminate|]. injection Hrow as ->.
  destruct row as [|p0 [|p1 row]]; [discriminate..|]. injection Hp as ->.
  unfold Monitor.predict, Monitor.predict_body, bind, lift,
    Monitor.call_predict, Monitor.call_predict_proba, ret, index.
  rewrite Hdf. simpl. rewrite Hpm. simpl. rewrite Hf. simpl.
  rewrite Hpr. simpl. unfold after_decision. simpl.
  rewrite <- app_assoc. reflexivity.
Qed.

(** X6: the monitored [predict] returns a decision exactly when the handle
    has [predict_proba], its [predict] gives at least one label and its
    [predict_proba] a first row with a second entry.  It then leaves the
    world with the two calls recorded, the count of that label up by one and
    the duration observed, and nothing else changed. *)
Theorem Monitor_decision_iff m duration patient w d w' :
  Monitor.predict round4 format3 m duration patient w = (Return d, w') <->
  exists df labels label f probs row p,
    Monitor.features_of patient = Ok df /\
    predict_method m df = Ok labels /\ nth_error labels 0 = Some label /\
    predict_proba_method m = Some f /\
    f df = Ok probs /\ nth_error probs 0 = Some row /\
    nth_error row 1 = Some p /\
    d = monitored_decision round4 format3 label p duration /\
    w' = after_decision w df label duration.
Proof.
  split.
  - intros H.
    assert (exists d0, Monitor.predict_body round4 format3 m duration patient w
                       = (Ok d0, w') /\ d0 = d) as (d0 & Hb & ->).
    { unfold Monitor.predict in H.
      destruct (Monitor.predict_body _ _ _ _ _ _) as [[d0|e] w0];
        [injection H as <- <-; eauto | discriminate]. }
    apply Monitor_predict_body_Ok in Hb
      as (df & labels & label & f & probs & row & p
          & Hdf & Hpm & Hl & Hf & Hpr & Hrow & Hp & -> & _).
    exists df, labels, label, f, probs, row, p.
    do 8 (split; [done|]).
    pose proof (Monitor_predict_decides m f duration patient w df labels label
                  probs row p Hf Hdf Hpm Hl Hpr Hrow Hp) as Hrun.
    rewrite H in Hrun. by injection Hrun.
  - intros (df & labels & label & f & probs & row & p
            & Hdf & Hpm & Hl & Hf & Hpr & Hrow & Hp & -> & ->).
    by apply (Monitor_predict_decides m f duration patient w df labels label
                probs row p).
Qed.

(** X7: when the monitored [predict] does not return a decision it answers
    400 with a detail that starts with "Prediction error: ", and neither
    the count of predictions nor the observed durations have moved: only
    decisions are measured. *)
Theorem Monitor_failure_is_not_measured m duration patient w status detail w' :
  Monitor.predict round4 format3 m duration patient w
  = (HTTPException status detail, w') ->
  status = 400
  /\ (exists text, detail = "Prediction error: " ++ text)
  /\ Monitor.PREDICTIONS w' = Monitor.PREDICTIONS w
  /\ Monitor.REQUEST_DURATION w' = Monitor.REQUEST_DURATION w.
Proof.
  unfold Monitor.predict, Monitor.predict_body, bind, lift, ret, raise,
    Monitor.call_predict, Monitor.call_predict_proba.
  destruct (Monitor.features_of patient) as [df|e]; simpl;
    [|intros [= <- <- <-]; eauto].
  destruct (predict_method m df) as [labels|e]; simpl;
    [|intros [= <- <- <-]; eauto].
  destruct (index "array" labels 0) as [label|e]; simpl;
    [|intros [= <- <- <-]; eauto].
  destruct (predict_proba_method m) as [f|]; simpl;
    [|intros [= <- <- <-]; eauto].
  destruct (f df) as [probs|e]; simpl; [|intros [= <- <- <-]; eauto].
  destruct (index "array" probs 0) as [row|e]; simpl;
    [|intros [= <- <- <-]; eauto].
  destruct (index "array" row 1) as [p|e]; simpl;
    [discriminate | intros [= <- <- <-]; eauto].
Qed.

End MonitorRoutes.

Lemma Monitor_failure_witness :
  Monitor.PREDICTIONS
    (snd (Monitor.predict (fun x => x) (fun _ => "0.000")
            (raising_stub (Exn "ValueError" "bad input")) 0%float
            scenario_record fresh_world)) = ∅
  /\ fst (Monitor.predict (fun x => x) (fun _ => "0.000")
            (raising_stub (Exn "ValueError" "bad input")) 0%float
            scenario_record fresh_world)
     = HTTPException 400 "Prediction error: bad input".
Proof.
  split; [|reflexivity].
  exact (proj1 (proj2 (proj2
           (Monitor_failure_is_not_measured (fun x => x) (fun _ => "0.000")
              (raising_stub (Exn "ValueError" "bad input")) 0%float
              scenario_record fresh_world _ _ _ eq_refl)))).
Defined.

(** X8: on a handle with [predict_proba] the two services decide alike.
    When either returns a decision for a record, so does the other, with the
    same label and from the same probability, hence with the same tier. *)
Theorem services_decide_alike round4 format3 m f duration data wD wM :
  predict_proba_method m = Some f ->
  (forall d wD',
      Deployment.predict (LOADED m) data wD = (Return d, wD') ->
      exists label p,
        d = decision label p
        /\ fst (Monitor.predict round4 format3 m duration data wM)
           = Return (monitored_decision round4 format3 label p duration))
  /\ (forall d wM',
         Monitor.predict round4 format3 m duration data wM = (Return d, wM') ->
         exists label p,
           d = monitored_decision round4 format3 label p duration
           /\ fst (Deployment.predict (LOADED m) data wD)
              = Return (decision label p)).
Proof.
  intros Hf. split.
  - intros d wD' H. unfold Deployment.predict in H.
    destruct (Deployment.predict_body (LOADED m) data wD) as [[d0|e] w0] eqn:Hb;
      [|discriminate].
    injection H as <- <-.
    apply Deployment_predict_body_Ok in Hb
      as (m' & df & labels & label & p & [= <-] & Hdf & Hpm & Hl & -> & Hrest).
    rewrite Hf in Hrest. destruct Hrest as (probs & row & Hpr & Hrow & Hp & _).
    exists label, p. split; [done|].
    rewrite <- features_agree in Hdf.
    by rewrite (Monitor_predict_decides round4 format3 m f duration data wM df
                  labels label probs row p).
  - intros d wM' H. unfold Monitor.predict in H.
    destruct (Monitor.predict_body round4 format3 m duration data wM)
      as [[d0|e] w0] eqn:Hb; [|discriminate].
    injection H as <- <-.
    apply Monitor_predict_body_Ok in Hb
      as (df & labels & label & f' & probs & row & p
          & Hdf & Hpm & Hl & Hf' & Hpr & Hrow & Hp & -> & _).
    rewrite Hf in Hf'. injection Hf' as <-.
    exists label, p. split; [done|].
    rewrite features_agree in Hdf.
    by rewrite (Deployment_predict_with_proba m f data wD df labels label
                  probs row p).
Qed.

Lemma services_decide_alike_witness :
  fst (Monitor.predict (fun x => x) (fun _ => "0.000") (stub 1 0.3 0.7)
         0%float scenario_record fresh_world)
  = Return (monitored_decision (fun x => x) (fun _ => "0.000") 1 0.7%float
              0%float).
Proof.
  destruct (proj1 (services_decide_alike (fun x => x) (fun _ => "0.000")
                     (stub 1 0.3 0.7) _ 0%float scenario_record []
                     fresh_world eq_refl) _ _ eq_refl)
    as (label & p & Hd & Hm).
  injection Hd as <- <-. exact Hm.
Defined.

Lemma monitored_decision_compliant round4 format3 label p duration :
  json_compliant (JObj (monitored_decision round4 format3 label p duration))
  = PrimFloat.is_finite (round4 p).
Proof.
  unfold monitored_decision. cbn [json_compliant forallb].
  by rewrite !andb_true_r.
Qed.

Lemma Monitor_POST_predict_outcome round4 format3 c m duration request w :
  exists r w1,
    Monitor.POST_predict round4 format3 c m duration request w = (r, w1)
    /\ match r with
       | Ok response =>
           status_code response = 200 \/ status_code response = 400
           \/ status_code response = 422
       | Raise e => e = not_json_compliant
       end.
Proof.
  unfold Monitor.POST_predict.
  destruct (validate c (Monitor.body request)) as [patient|errors].
  - unfold Monitor.predict.
    destruct (Monitor.predict_body _ _ _ _ _ _) as [[d|e] w1].
    + unfold respond. destruct (json_compliant (JObj d));
        eexists _, _; (split; [reflexivity|]); simpl; auto.
    + eexists _, _. split; [reflexivity|]. simpl. auto.
  - eexists _, _. split; [reflexivity|]. simpl. auto.
Qed.

Lemma Monitor_app_outcome round4 format3 elsewhere c m duration request w :
  exists r w1,
    Monitor.app round4 format3 elsewhere c m duration request w = (r, w1)
    /\ (Monitor.method request = "GET" -> Monitor.path request = "/" ->
        respond Monitor.root = r)
    /\ (forall response,
           r = Ok response ->
           Monitor.method request = "POST" ->
           Monitor.path request = "/predict" ->
           status_code response = 200 \/ status_code response = 400
           \/ status_code response = 422)
    /\ (forall e,
           r = Raise e ->
           Monitor.method request = "POST"
           /\ Monitor.path request = "/predict"
           /\ e = not_json_compliant).
Proof.
  unfold Monitor.app.
  destruct (String.eqb_spec (Monitor.method request) "GET") as [Hm|Hm];
    destruct (String.eqb_spec (Monitor.path request) "/") as [Hp|Hp]; simpl.
  - eexists _, _. split; [reflexivity|].
    split; [done|]. split; [|discriminate].
    intros response _ Hpost. congruence.
  - rewrite Hm. simpl. eexists _, _. split; [reflexivity|].
    split; [done|]. split; discriminate.
  - destruct (String.eqb_spec (Monitor.method request) "POST") as [Hm'|Hm'];
      simpl; [rewrite Hp; simpl|];
      eexists _, _; (split; [reflexivity|]); (split; [done|]);
      (split; [intros response _ Hpost Hpath; congruence | discriminate]).
  - destruct (String.eqb_spec (Monitor.method request) "POST") as [Hm'|Hm'];
      destruct (String.eqb_spec (Monitor.path request) "/predict") as [Hp'|Hp'];
      simpl.
    + destruct (Monitor_POST_predict_outcome round4 format3 c m duration
                  request w) as (r & w1 & -> & Hr).
      eexists _, _. split; [reflexivity|]. split; [done|]. split.
      * intros response -> _ _. done.
      * intros e ->. done.
    + eexists _, _. split; [reflexivity|]. split; [done|].
      split; [done | discriminate].
    + eexists _, _. split; [reflexivity|]. split; [done|].
      split; [done | discriminate].
    + eexists _, _. split; [reflexivity|]. split; [done|].
      split; [done | discriminate].
Qed.

(** X9: the middleware around the application, for a request that is not
    cancelled.  The gauge is back at its value and the request is counted
    once, under the status of the response that is passed on or under 500
    when an exception is passed on.  The only exception a route lets reach
    the middleware is the ValueError of rendering a decision whose confidence
    is NaN or infinite, on [POST /predict]: prediction and validation
    failures have become 400 and 422 responses by then.  [GET /] gets the
    fixed message, and a response to [POST /predict] is 200, 400 or 422. *)
Theorem Monitor_service_counts_what_it_answers
    round4 format3 elsewhere c m duration request w :
  let served :=
    Monitor.prometheus_metrics request
      (awaited (Monitor.app round4 format3 elsewhere c m duration)) w in
  exists r,
    fst served = Completed r
    /\ Monitor.ACTIVE_USERS (snd served) = Monitor.ACTIVE_USERS w
    /\ Monitor.REQUEST_COUNT (snd served)
       = Monitor.counter_inc
           (Monitor.method request, Monitor.path request,
            match r with Ok response => status_code response | Raise _ => 500 end)
           (Monitor.REQUEST_COUNT w)
    /\ (Monitor.method request = "GET" -> Monitor.path request = "/" ->
        r = Ok {| status_code := 200;
                  content :=
                    JObj [("message", JStr "Heart Disease API (MONITORED) ✅");
                          ("metrics", JStr "/metrics")] |})
    /\ (forall response,
           r = Ok response ->
           Monitor.method request = "POST" ->
           Monitor.path request = "/predict" ->
           status_code response = 200 \/ status_code response = 400
           \/ status_code response = 422)
    /\ (forall e,
           r = Raise e ->
           Monitor.method request = "POST"
           /\ Monitor.path request = "/predict"
           /\ e = not_json_compliant).
Proof.
  intros served. subst served.
  destruct (app_keeps round4 format3 elsewhere c m duration) as [Hg Hc].
  destruct (Monitor_app_outcome round4 format3 elsewhere c m duration request
              (snd (Monitor.ACTIVE_USERS_inc w)))
    as (r & w1 & Happ & Hroot & Hpredict & Hraise).
  assert (Hcall : awaited (Monitor.app round4 format3 elsewhere c m duration)
                    request (snd (Monitor.ACTIVE_USERS_inc w))
                  = (Completed r, w1))
    by (unfold awaited, run; by rewrite Happ).
  destruct (middleware_settles_when_completed _ request w r w1 Hg Hc Hcall)
    as (Hout & Hgauge & Hcount & _).
  exists r. split; [done|]. split; [done|]. split; [done|].
  split; [|done].
  intros Hm Hp. by rewrite <- (Hroot Hm Hp).
Qed.

(** X10: the middleware moves only the gauge and the request counter.  The
    calls on the model, the counts of predictions and the observed durations
    are left as the handler left them, whether it returned, raised or was
    cancelled. *)
Theorem middleware_moves_only_its_metrics call_next request w :
  let inner := snd (call_next request (snd (Monitor.ACTIVE_USERS_inc w))) in
  let served := snd (Monitor.prometheus_metrics request call_next w) in
  Monitor.calls served = Monitor.calls inner
  /\ Monitor.PREDICTIONS served = Monitor.PREDICTIONS inner
  /\ Monitor.REQUEST_DURATION served = Monitor.REQUEST_DURATION inner.
Proof.
  intros inner served. subst inner served.
  remember (snd (Monitor.ACTIVE_USERS_inc w)) as entered eqn:He.
  assert (Hinc : Monitor.ACTIVE_USERS_inc w = (Ok (), entered))
    by (subst entered; reflexivity).
  clear He.
  unfold Monitor.prometheus_metrics, abind, try_except_Exception, run.
  rewrite Hinc.
  destruct (call_next request entered) as [[[response|e]|] w1]; done.
Qed.

(** * Further properties of the request boundary *)

Lemma json_get_insert_other k k' v l1 l2 :
  k' <> k ->
  json_get k' (l1 ++ (k, v) :: l2) = json_get k' (l1 ++ l2).
Proof.
  intros Hne. induction l1 as [|[k1 v1] l1 IH]; simpl.
  - destruct (json_get k' l2); [done|].
    by destruct (String.eqb_spec k' k).
  - by rewrite IH.
Qed.

Lemma schema_name_differs k name :
  k ∉ schema.*1 -> name ∈ schema.*1 -> name <> k.
Proof. intros Hk Hname ->. by apply Hk. Qed.

(** X11: a member of the body whose key is not a field of [HeartPatient] is
    ignored, wherever it stands: the body is accepted or rejected, parsed and
    reported exactly as without it. *)
Theorem unknown_fields_are_ignored c l1 l2 k v :
  k ∉ schema.*1 ->
  parse c (l1 ++ (k, v) :: l2) = parse c (l1 ++ l2)
  /\ field_errors c (l1 ++ (k, v) :: l2) = field_errors c (l1 ++ l2)
  /\ validate c (JObj (l1 ++ (k, v) :: l2)) = validate c (JObj (l1 ++ l2)).
Proof.
  intros Hk.
  assert (Hget : forall name, name ∈ schema.*1 ->
            json_get name (l1 ++ (k, v) :: l2) = json_get name (l1 ++ l2)).
  { intros name Hname. apply json_get_insert_other.
    by apply schema_name_differs. }
  assert (Hparse : parse c (l1 ++ (k, v) :: l2) = parse c (l1 ++ l2)).
  { unfold parse. cbv zeta.
    rewrite !Hget by (apply (bool_decide_unpack _); vm_compute; reflexivity).
    reflexivity. }
  assert (Herrors : field_errors c (l1 ++ (k, v) :: l2)
                    = field_errors c (l1 ++ l2)).
  { unfold field_errors, schema, check_field. simpl.
    rewrite !Hget by (apply (bool_decide_unpack _); vm_compute; reflexivity).
    reflexivity. }
  split; [done|]. split; [done|].
  unfold validate. by rewrite Hparse, Herrors.
Qed.

Lemma unknown_fields_witness :
  parse json_numbers (encode scenario_record ++ [("note", JStr "urgent")])
  = Some scenario_record.
Proof.
  pose proof (unknown_fields_are_ignored json_numbers
                (encode scenario_record) [] "note" (JStr "urgent")) as H.
  rewrite app_nil_r in H.
  rewrite (proj1 (H ltac:(apply (bool_decide_unpack _); vm_compute; reflexivity))).
  reflexivity.
Defined.

(** * Selecting columns by name *)

Lemma position_of_member (d : list (string * cell)) k v dflt :
  NoDup (map fst d) -> (k, v) ∈ d ->
  exists i, position k (map fst d) = Some i /\ nth i (map snd d) dflt = v.
Proof.
  induction d as [|[k' v'] d IH]; simpl; intros Hnd Hin.
  - by apply elem_of_nil in Hin.
  - apply NoDup_cons in Hnd as [Hfresh Hnd].
    apply elem_of_cons in Hin as [[= -> ->]|Hin].
    + exists O. by rewrite String.eqb_refl.
    + destruct (String.eqb_spec k k') as [->|Hne].
      * destruct Hfresh. apply list_elem_of_In, in_map_iff.
        exists (k', v). split; [done|]. by apply list_elem_of_In.
      * destruct (IH Hnd Hin) as (i & -> & Hi). exists (S i). done.
Qed.

Lemma position_not_member k (names : list string) :
  k ∉ names -> position k names = None.
Proof.
  induction names as [|n names IH]; simpl; [done|].
  intros Hk. apply not_elem_of_cons in Hk as [Hne Hk].
  destruct (String.eqb_spec k n); [done|]. by rewrite IH.
Qed.

(** X13: the monitored service picks the features by name.  Whatever order
    the dict of the record lists its fields in, the frame handed to the model
    is the same, in the order of [feature_columns]; and a dict without one of
    those fields makes the selection raise. *)
Theorem Monitor_features_by_name patient d :
  (d ≡ₚ Monitor.dict patient ->
   select_columns (DataFrame_of_record d) Monitor.feature_columns
   = Monitor.features_of patient)
  /\ (forall name,
         name ∈ Monitor.feature_columns -> name ∉ d.*1 ->
         exists e,
           select_columns (DataFrame_of_record d) Monitor.feature_columns
           = Raise e).
Proof.
  split.
  - intros Hperm.
    assert (Hnd : NoDup (map fst d)).
    { change (NoDup d.*1). rewrite Hperm.
      apply (bool_decide_unpack _). vm_compute. reflexivity. }
    change (Monitor.features_of patient)
      with (Ok {| columns := Monitor.feature_columns;
                  rows := [map snd (Monitor.dict patient)] |}).
    unfold select_columns, DataFrame_of_record, Monitor.feature_columns.
    cbn [columns rows map mapM].
    assert (Hall : forall name value,
               (name, value) ∈ Monitor.dict patient ->
               exists i, position name (map fst d) = Some i
                         /\ nth i (map snd d) (CFloat nan) = value).
    { intros name value Hin. apply position_of_member; [done|].
      by rewrite Hperm. }
    destruct patient. unfold Monitor.dict in *. cbn [age sex cp trestbps chol fbs restecg thalach exang oldpeak slope ca thal map snd] in *.
    assert (Hat : forall name value,
               (name, value) ∈
                 [("age", CFloat age0); ("sex", CInt sex0); ("cp", CInt cp0);
                  ("trestbps", CFloat trestbps0); ("chol", CFloat chol0);
                  ("fbs", CInt fbs0); ("restecg", CInt restecg0);
                  ("thalach", CFloat thalach0); ("exang", CInt exang0);
                  ("oldpeak", CFloat oldpeak0); ("slope", CInt slope0);
                  ("ca", CFloat ca0); ("thal", CInt thal0)] ->
               exists i, position name (map fst d) = Some i
                         /\ value = nth i (map snd d) (CFloat nan)).
    { intros name value Hin. destruct (Hall name value Hin) as (i & ? & ?).
      eauto. }
    destruct (Hat "age" (CFloat age0)) as (i1 & -> & ->); [listed|].
    destruct (Hat "sex" (CInt sex0)) as (i2 & -> & ->); [listed|].
    destruct (Hat "cp" (CInt cp0)) as (i3 & -> & ->); [listed|].
    destruct (Hat "trestbps" (CFloat trestbps0)) as (i4 & -> & ->); [listed|].
    destruct (Hat "chol" (CFloat chol0)) as (i5 & -> & ->); [listed|].
    destruct (Hat "fbs" (CInt fbs0)) as (i6 & -> & ->); [listed|].
    destruct (Hat "restecg" (CInt restecg0)) as (i7 & -> & ->); [listed|].
    destruct (Hat "thalach" (CFloat thalach0)) as (i8 & -> & ->); [listed|].
    destruct (Hat "exang" (CInt exang0)) as (i9 & -> & ->); [listed|].
    destruct (Hat "oldpeak" (CFloat oldpeak0)) as (i10 & -> & ->); [listed|].
    destruct (Hat "slope" (CInt slope0)) as (i11 & -> & ->); [listed|].
    destruct (Hat "ca" (CFloat ca0)) as (i12 & -> & ->); [listed|].
    destruct (Hat "thal" (CInt thal0)) as (i13 & -> & ->); [listed|].
    reflexivity.
  - intros name Hname Hmissing.
    unfold select_columns, DataFrame_of_record. cbn [columns].
    destruct (mapM _ _) as [places|] eqn:Hplaces; [|eauto].
    apply mapM_Some_1 in Hplaces.
    apply list_elem_of_lookup in Hname as [j Hj].
    destruct (Forall2_lookup_l _ _ _ _ _ Hplaces Hj) as (i & _ & Hpos).
    by rewrite position_not_member in Hpos.
Qed.

Lemma Monitor_features_by_name_witness :
  select_columns (DataFrame_of_record (reverse (Monitor.dict scenario_record)))
    Monitor.feature_columns
  = Monitor.features_of scenario_record.
Proof.
  apply (proj1 (Monitor_features_by_name scenario_record
                  (reverse (Monitor.dict scenario_record)))).
  apply reverse_Permutation.
Defined.

(** * The training pipeline and the services *)

(** X14: the columns the training pipeline's preprocessor names are the
    columns the services send.  Its numeric features are exactly the fields
    of [HeartPatient] annotated [float] and its categorical features exactly
    those annotated [int], in the same order; together they are the 13
    served columns, each once; and on the frame of any record both lookups
    succeed, the numeric pipeline receiving the float values and the
    categorical one the integer values. *)
Theorem preprocessor_columns_are_served data :
  Train.numeric_features = fields_annotated TFloat
  /\ Train.categorical_features = fields_annotated TInt
  /\ Train.numeric_features ++ Train.categorical_features
     ≡ₚ Deployment.column_names
  /\ NoDup (Train.numeric_features ++ Train.categorical_features)
  /\ exists df,
       Deployment.features_of data = Ok df
       /\ Monitor.features_of data = Ok df
       /\ Train.preprocessor_inputs df
          = Ok ({| columns := Train.numeric_features;
                   rows := [[CFloat (age data); CFloat (trestbps data);
                             CFloat (chol data); CFloat (thalach data);
                             CFloat (oldpeak data); CFloat (ca data)]] |},
                {| columns := Train.categorical_features;
                   rows := [[CInt (sex data); CInt (cp data); CInt (fbs data);
                             CInt (restecg data); CInt (exang data);
                             CInt (slope data); CInt (thal data)]] |}).
Proof.
  split; [reflexivity|]. split; [reflexivity|].
  split; [apply (bool_decide_unpack _); vm_compute; reflexivity|].
  split; [apply (bool_decide_unpack _); vm_compute; reflexivity|].
  eexists. split; [reflexivity|]. split; reflexivity.
Qed.
